(** * f3rva-workout-service: the lookup service, its gateway and its HTTP surface

    A shallow embedding of [app/core/database.py], [app/models/workout.py],
    [app/services/workout_service.py], [app/api/workouts.py] and
    [lambda_handler.py].

    Python code that talks to a collaborator (the HTTP layer to the lookup
    service, the lookup service to the gateway, the gateway to pymysql) is
    embedded as a finite program tree: every call to the collaborator is a
    node, and the collaborator's answer selects the continuation.  A tree
    is run against a handler, an arbitrary stateful description of how the
    collaborator answers; the run yields the outcome, the handler's final
    state and the trace of calls made.  Exceptions are values of [PyExc]
    carried in the outcome. *)

From Stdlib Require Import ZArith Ascii.
From stdpp Require Import gmap strings list pretty.

Set Implicit Arguments.
Set Default Proof Using "Type".
Local Open Scope Z_scope.

(** ** Python exceptions *)

(** The exception classes the modelled code raises, catches or lets
    through.  All of them derive from [Exception]; [Exception_] stands for
    any other subclass (pymysql's errors among them), with [msg] its
    [str()]; pydantic's [ValidationError] carries its [str()] as well, the
    report that starts with the error count and the name of the model and
    lists the failing fields.  What [except Exception] does not catch
    ([KeyboardInterrupt], the cancellation of a task) is outside the
    model. *)
Inductive PyExc : Type :=
| Exception_ (msg : string)
| ValueError (msg : string)
| KeyError (key : string)
| ValidationError (report : string)
| HTTPException (status_code : Z) (detail : string).

(** [isinstance(e, ValueError)]: pydantic's [ValidationError] derives from
    [ValueError]. *)
Definition is_ValueError (e : PyExc) : bool :=
  match e with
  | ValueError _ | ValidationError _ => true
  | _ => false
  end.

(** [str(e)], as the f-strings of the log messages and of the
    "Invalid date" detail use it.  A [KeyError] prints the [repr] of its
    key: the keys of this service are column names, plain identifiers,
    which [repr] puts between single quotes. *)
Definition str_exc (e : PyExc) : string :=
  match e with
  | Exception_ msg => msg
  | ValueError msg => msg
  | KeyError key => "'" +:+ key +:+ "'"
  | ValidationError report => report
  | HTTPException code detail => pretty code +:+ ": " +:+ detail
  end.

(** A computation that returns or raises. *)
Definition Result (A : Type) : Type := PyExc + A.

Definition res_bind {A B} (r : Result A) (f : A -> Result B) : Result B :=
  match r with
  | inl e => inl e
  | inr a => f a
  end.

(** A list comprehension whose element expression may raise: elements are
    evaluated left to right and the first exception ends it. *)
Fixpoint res_mapM {A B} (f : A -> Result B) (l : list A) : Result (list B) :=
  match l with
  | [] => inr []
  | x :: l' =>
      res_bind (f x) (fun y =>
      res_bind (res_mapM f l') (fun ys => inr (y :: ys)))
  end.

(** ** Programs over a collaborator interface *)

Record Interface : Type := { Op : Type; Ans : Op -> Type }.

Inductive Prog (I : Interface) (A : Type) : Type :=
| Ret (a : A)
| Do (o : Op I) (k : Ans I o -> Prog I A).
Arguments Ret {I A} a.
Arguments Do {I A} o k.

Fixpoint bind {I A B} (p : Prog I A) (f : A -> Prog I B) : Prog I B :=
  match p with
  | Ret a => f a
  | Do o k => Do o (fun x => bind (k x) f)
  end.

(** One call made during a run, with the answer it received. *)
Record Event (I : Interface) : Type := Ev { ev_op : Op I; ev_ans : Ans I ev_op }.
Arguments Ev {I} ev_op ev_ans.

Record Run (St A : Type) (I : Interface) : Type :=
  { outcome : A; final : St; trace : list (Event I) }.
Arguments Build_Run {St A I} outcome final trace.

Definition Handler (I : Interface) (St : Type) : Type :=
  forall o : Op I, St -> Ans I o * St.

Fixpoint run {I St A} (h : Handler I St) (p : Prog I A) (s : St) : Run St A I :=
  match p with
  | Ret a => Build_Run a s []
  | Do o k =>
      let r := run h (k (h o s).1) (h o s).2 in
      Build_Run (outcome r) (final r) (Ev o (h o s).1 :: trace r)
  end.

(** Replacing every call of interface [I] by a program over [J]. *)
Fixpoint interp {I J A} (f : forall o : Op I, Prog J (Ans I o)) (p : Prog I A)
  : Prog J A :=
  match p with
  | Ret a => Ret a
  | Do o k => bind (f o) (fun x => interp f (k x))
  end.

(** The same when the calls are methods of an object whose state [S] they
    read and update. *)
Fixpoint interp_state {I J S A} (f : forall o : Op I, S -> Prog J (Ans I o * S))
    (p : Prog I A) (s : S) : Prog J (A * S) :=
  match p with
  | Ret a => Ret (a, s)
  | Do o k => bind (f o s) (fun xs => interp_state f (k xs.1) xs.2)
  end.

(** *** Python control flow in program trees *)

Definition Py (I : Interface) (A : Type) : Type := Prog I (Result A).

Definition py_ret {I A} (a : A) : Py I A := Ret (inr a).
Definition py_raise {I A} (e : PyExc) : Py I A := Ret (inl e).
Definition py_lift {I A} (r : Result A) : Py I A := Ret r.

Definition py_bind {I A B} (p : Py I A) (f : A -> Py I B) : Py I B :=
  bind p (fun r => match r with
                   | inl e => Ret (inl e)
                   | inr a => f a
                   end).

(** [try: p  except Exception as e: handler e] *)
Definition try_except {I A} (p : Py I A) (handler : PyExc -> Py I A) : Py I A :=
  bind p (fun r => match r with
                   | inl e => handler e
                   | inr a => Ret (inr a)
                   end).

(** [try: p  except ValueError as e: handler e]; other exceptions pass. *)
Definition try_except_ValueError {I A} (p : Py I A) (handler : PyExc -> Py I A)
  : Py I A :=
  try_except p (fun e => if is_ValueError e then handler e else py_raise e).

Declare Scope py_scope.
Delimit Scope py_scope with py.
Notation "x <- p ;; q" := (py_bind p (fun x => q))
  (at level 100, p at next level, right associativity) : py_scope.
Notation "p ;; q" := (py_bind p (fun _ => q))
  (at level 100, right associativity) : py_scope.

(** ** [datetime.date] *)

Module datetime.

Record date : Type := mkdate { year : Z; month : Z; day : Z }.

#[global] Instance date_eq_dec : EqDecision date.
Proof. solve_decision. Defined.

Definition is_leap (y : Z) : bool :=
  (y mod 4 =? 0) && (negb (y mod 100 =? 0) || (y mod 400 =? 0)).

Definition days_in_month (y m : Z) : Z :=
  if m =? 2 then (if is_leap y then 29 else 28)
  else if (m =? 4) || (m =? 6) || (m =? 9) || (m =? 11) then 30
  else 31.

(** [date(year, month, day)]: the constructor's range checks, in
    CPython's order and with its messages.  Both callers compare or
    validate the three numbers first; numbers beyond a C [int], which
    CPython refuses with [OverflowError] before these checks, do not
    reach the constructor. *)
Definition new (y m d : Z) : Result date :=
  if negb ((1 <=? y) && (y <=? 9999)) then
    inl (ValueError ("year " +:+ pretty y +:+ " is out of range"))
  else if negb ((1 <=? m) && (m <=? 12)) then
    inl (ValueError "month must be in 1..12")
  else if negb ((1 <=? d) && (d <=? days_in_month y m)) then
    inl (ValueError "day is out of range for month")
  else inr (mkdate y m d).

(** ["%0*d"]: decimal digits, padded with zeros on the left. *)
Fixpoint zeros (n : nat) : string :=
  match n with
  | O => ""
  | S n' => "0" +:+ zeros n'
  end.

Definition zfill (width : nat) (z : Z) : string :=
  let s := pretty z in zeros (width - String.length s) +:+ s.

(** [str(d)] is [d.isoformat()]: ["%04d-%02d-%02d"]. *)
Definition isoformat (d : date) : string :=
  zfill 4 (year d) +:+ "-" +:+ zfill 2 (month d) +:+ "-" +:+ zfill 2 (day d).

End datetime.

(** ** [app/models/workout.py] *)

Module models.

(** A column value as the queries of this service select it: SQL NULL,
    a string, an integer or a date. *)
Inductive value : Type :=
| VNone
| VStr (s : string)
| VInt (z : Z)
| VDate (d : datetime.date).

#[global] Instance value_eq_dec : EqDecision value.
Proof. solve_decision. Defined.

(** A row of a [DictCursor], and the parameter dict of a query. *)
Abbreviation Row := (gmap string value).

(** [row[key]] *)
Definition getitem (row : Row) (key : string) : Result value :=
  match row !! key with
  | Some v => inr v
  | None => inl (KeyError key)
  end.

(** [row.get(key)] *)
Definition get (row : Row) (key : string) : value :=
  default VNone (row !! key).

(** pydantic's coercion of an input to a field type.  The library is not
    part of the repository: which inputs it accepts for a [str] and for
    a [date] field is left open, and so is the text of the report it
    raises, [str()] of the [ValidationError] for the model named [title]
    built from the given field inputs. *)
Class Pydantic : Type :=
  { validate_str : value -> option string;
    validate_date : value -> option datetime.date;
    validation_report : forall (title : string) (inputs : list (string * value)),
        string }.

(** A [str | None] field. *)
Definition validate_opt_str `{Pydantic} (v : value) : option (option string) :=
  match v with
  | VNone => Some None
  | _ => Some <$> validate_str v
  end.

Module AOSModel.
Record t : Type := { name : string; description : option string }.
Definition new `{Pydantic} (name_ description_ : value) : Result t :=
  match validate_str name_, validate_opt_str description_ with
  | Some n, Some d => inr {| name := n; description := d |}
  | _, _ =>
      inl (ValidationError
             (validation_report "AOSModel"
                [("name", name_); ("description", description_)]))
  end.
End AOSModel.

Module PAXModel.
Record t : Type := { name : string; f3_name : option string }.
Definition new `{Pydantic} (name_ f3_name_ : value) : Result t :=
  match validate_str name_, validate_opt_str f3_name_ with
  | Some n, Some f => inr {| name := n; f3_name := f |}
  | _, _ =>
      inl (ValidationError
             (validation_report "PAXModel"
                [("name", name_); ("f3_name", f3_name_)]))
  end.
End PAXModel.

Module QICModel.
Record t : Type := { name : string; f3_name : option string }.
Definition new `{Pydantic} (name_ f3_name_ : value) : Result t :=
  match validate_str name_, validate_opt_str f3_name_ with
  | Some n, Some f => inr {| name := n; f3_name := f |}
  | _, _ =>
      inl (ValidationError
             (validation_report "QICModel"
                [("name", name_); ("f3_name", f3_name_)]))
  end.
End QICModel.

Module WorkoutModel.
Record t : Type :=
  { workout_date : datetime.date;
    qic : QICModel.t;
    pax : list PAXModel.t;
    aos : list AOSModel.t;
    url_slug : string }.
(** [qic], [pax] and [aos] arrive as model instances and are taken as
    they are; the two row values are validated, and a report is about
    them. *)
Definition new `{Pydantic} (workout_date_ : value) (qic_ : QICModel.t)
    (pax_ : list PAXModel.t) (aos_ : list AOSModel.t) (url_slug_ : value)
  : Result t :=
  match validate_date workout_date_, validate_str url_slug_ with
  | Some d, Some s =>
      inr {| workout_date := d; qic := qic_; pax := pax_; aos := aos_;
             url_slug := s |}
  | _, _ =>
      inl (ValidationError
             (validation_report "WorkoutModel"
                [("workout_date", workout_date_); ("url_slug", url_slug_)]))
  end.
End WorkoutModel.

Module WorkoutRequest.
Record t : Type := { year : Z; month : Z; day : Z; url_slug : string }.
(** The [ge]/[le] constraints of the fields. *)
Definition valid (r : t) : bool :=
  (2000 <=? year r) && (year r <=? 9999) &&
  (1 <=? month r) && (month r <=? 12) &&
  (1 <=? day r) && (day r <=? 31).
End WorkoutRequest.

Module WorkoutResponse.
Record t : Type :=
  { success : bool;
    message : option string;
    data : option WorkoutModel.t }.
End WorkoutResponse.

End models.

(** ** Logging *)

Inductive Level : Type := INFO | ERROR.

(** ** [app/core/database.py]: the gateway *)

Module database.
Import models.

Record DatabaseConfig : Type :=
  { host : string;
    port : Z;
    username : string;
    password : string;
    database : string;
    charset : string;
    autocommit : bool }.

Definition from_env : DatabaseConfig :=
  {| host := "your-mysql-host.rds.amazonaws.com";
     port := 3306;
     username := "your-db-username";
     password := "your-db-password";
     database := "f3rva_workouts";
     charset := "utf8mb4";
     autocommit := true |}.

(** Connection and cursor objects of pymysql, by identity. *)
Definition Connection : Type := nat.
Definition Cursor : Type := nat.

(** What the gateway asks of pymysql and of its logger.  Every call into
    pymysql may raise, except [Connection.close]: on a connection that was
    not closed before it swallows transport errors, and the manager closes
    a stored connection once, clearing the attribute right after. *)
Inductive PymysqlOp : Type :=
| pymysql_connect (config : DatabaseConfig)
| connection_cursor (c : Connection)
| cursor_execute (cur : Cursor) (query : string) (params : Row)
| cursor_fetchall (cur : Cursor)
| cursor_close (cur : Cursor)
| connection_rollback (c : Connection)
| connection_close (c : Connection)
| logger (lvl : Level) (msg : string).

Definition PymysqlAns (o : PymysqlOp) : Type :=
  match o with
  | pymysql_connect _ => Result Connection
  | connection_cursor _ => Result Cursor
  | cursor_execute _ _ _ => Result unit
  | cursor_fetchall _ => Result (list Row)
  | cursor_close _ => Result unit
  | connection_rollback _ => Result unit
  | connection_close _ => unit
  | logger _ _ => unit
  end.

Definition Pymysql : Interface := {| Op := PymysqlOp; Ans := PymysqlAns |}.

(** The [DatabaseConnection] object: [self.config], [self._connection]. *)
Record DatabaseConnection : Type :=
  { config : DatabaseConfig; _connection : option Connection }.

(** [DatabaseConnection(config)] *)
Definition init (cfg : DatabaseConfig) : DatabaseConnection :=
  {| config := cfg; _connection := None |}.

(** A method of the object: it reads and updates [self], calls pymysql,
    and returns or raises; [self] survives a raise. *)
Definition Method (A : Type) : Type :=
  DatabaseConnection -> Prog Pymysql (Result A * DatabaseConnection).

Definition m_ret {A} (a : A) : Method A := fun self => Ret (inr a, self).
Definition m_raise {A} (e : PyExc) : Method A := fun self => Ret (inl e, self).

Definition m_bind {A B} (p : Method A) (f : A -> Method B) : Method B :=
  fun self =>
    bind (p self) (fun rs =>
      match rs.1 with
      | inl e => Ret (inl e, rs.2)
      | inr a => f a rs.2
      end).

Definition m_self : Method DatabaseConnection := fun self => Ret (inr self, self).

Definition set__connection (v : option Connection) : Method unit :=
  fun self => Ret (inr tt, {| config := config self; _connection := v |}).

(** One call [o], its answer read as a result by [conv]. *)
Definition perform {A} (o : PymysqlOp) (conv : PymysqlAns o -> Result A)
  : Method A :=
  fun self => Do (o : Op Pymysql) (fun x => Ret (conv x, self)).

(** [try: p  except Exception as e: handler e] *)
Definition m_try_except {A} (p : Method A) (handler : PyExc -> Method A)
  : Method A :=
  fun self =>
    bind (p self) (fun rs =>
      match rs.1 with
      | inl e => handler e rs.2
      | inr a => Ret (inr a, rs.2)
      end).

(** [try: p  finally: fin]; an exception of [fin] replaces the outcome. *)
Definition m_try_finally {A} (p : Method A) (fin : Method unit) : Method A :=
  fun self =>
    bind (p self) (fun rs =>
      bind (fin rs.2) (fun fs =>
        match fs.1 with
        | inl e => Ret (inl e, fs.2)
        | inr _ => Ret (rs.1, fs.2)
        end)).

Declare Scope method_scope.
Delimit Scope method_scope with method.
Notation "x <- p ;; q" := (m_bind p (fun x => q))
  (at level 100, p at next level, right associativity) : method_scope.
Notation "p ;; q" := (m_bind p (fun _ => q))
  (at level 100, right associativity) : method_scope.
Local Open Scope method_scope.

Definition log (lvl : Level) (msg : string) : Method unit :=
  perform (logger lvl msg) inr.

Definition connect : Method Connection :=
  m_try_except
    (self <- m_self ;;
     c <- perform (pymysql_connect (config self)) id ;;
     set__connection (Some c) ;;
     log INFO "Database connection established" ;;
     m_ret c)
    (fun e =>
       log ERROR ("Failed to connect to database: " +:+ str_exc e) ;;
       m_raise e).

Definition disconnect : Method unit :=
  self <- m_self ;;
  match _connection self with
  | Some c =>
      perform (connection_close c) inr ;;
      set__connection None ;;
      log INFO "Database connection closed"
  | None => m_ret tt
  end.

(** The [except] clause of [get_connection]; [connection] is the local
    variable, still [None] while [connect] has not returned. *)
Definition get_connection_except (connection : option Connection) {A}
    (e : PyExc) : Method A :=
  match connection with
  | Some c => perform (connection_rollback c) id
  | None => m_ret tt
  end ;;
  log ERROR ("Database operation failed: " +:+ str_exc e) ;;
  m_raise e.

(** The context manager: [body] is the block under [with]; an exception
    of the block is thrown into the generator at its [yield]. *)
Definition get_connection {A} (body : Connection -> Method A) : Method A :=
  m_try_finally
    (connection <- m_try_except connect (get_connection_except None) ;;
     m_try_except (body connection) (get_connection_except (Some connection)))
    disconnect.

(** [with connection.cursor() as cursor: body]: [Cursor.__exit__] closes
    the cursor. *)
Definition with_cursor {A} (connection : Connection) (body : Cursor -> Method A)
  : Method A :=
  cursor <- perform (connection_cursor connection) id ;;
  m_try_finally (body cursor) (perform (cursor_close cursor) id).

Definition execute_query (query : string) (params : option Row)
  : Method (list Row) :=
  get_connection (fun connection =>
    with_cursor connection (fun cursor =>
      perform (cursor_execute cursor query (default ∅ params)) id ;;
      perform (cursor_fetchall cursor) id)).

Definition execute_single (query : string) (params : option Row)
  : Method (option Row) :=
  results <- execute_query query params ;;
  m_ret (head results).

(** *** Reading a trace of the gateway *)

(** The connection a [pymysql.connect] call returned, if the event is one. *)
Definition opened_by (ev : Event Pymysql) : option Connection :=
  match ev with
  | Ev o x =>
      match o as o' return PymysqlAns o' -> option Connection with
      | pymysql_connect _ => fun r => match r with
                                      | inr c => Some c
                                      | inl _ => None
                                      end
      | _ => fun _ => None
      end x
  end.

(** The connection a [close()] call was made on, if the event is one. *)
Definition closed_by (ev : Event Pymysql) : option Connection :=
  match ev_op ev : PymysqlOp with
  | connection_close c => Some c
  | _ => None
  end.

Definition is_connect (ev : Event Pymysql) : option unit :=
  match ev_op ev : PymysqlOp with
  | pymysql_connect _ => Some tt
  | _ => None
  end.

(** Connections acquired, connections released, and the number of
    [pymysql.connect] calls in a trace. *)
Definition opened (tr : list (Event Pymysql)) : list Connection := omap opened_by tr.
Definition closed (tr : list (Event Pymysql)) : list Connection := omap closed_by tr.
Definition connect_calls (tr : list (Event Pymysql)) : nat := length (omap is_connect tr).

(** The calls into pymysql, without the log lines. *)
Definition is_pymysql_call (ev : Event Pymysql) : option PymysqlOp :=
  match ev_op ev : PymysqlOp with
  | logger _ _ => None
  | o => Some o
  end.

Definition pymysql_calls (tr : list (Event Pymysql)) : list PymysqlOp :=
  omap is_pymysql_call tr.

(** What "one connection per operation, always released" says of a run
    of a gateway operation started on [self]: no connection stays stored,
    [pymysql.connect] was called once, every connection it returned was
    closed (and, starting without a stored connection, nothing else was),
    and closing the acquired connection was the last call into pymysql. *)
Definition releases {St A} (self : DatabaseConnection)
    (r : Run St (Result A * DatabaseConnection) Pymysql) : Prop :=
  _connection (outcome r).2 = None /\
  connect_calls (trace r) = 1%nat /\
  (forall c, c ∈ opened (trace r) -> c ∈ closed (trace r)) /\
  (_connection self = None -> closed (trace r) = opened (trace r)) /\
  (forall c, opened (trace r) = [c] ->
     last (pymysql_calls (trace r)) = Some (connection_close c)).

(** More readings of a trace: the connections rolled back, the row sets
    fetched, and the exceptions pymysql raised, each in order. *)
Definition rolled_back_by (ev : Event Pymysql) : option Connection :=
  match ev_op ev : PymysqlOp with
  | connection_rollback c => Some c
  | _ => None
  end.

Definition fetched_by (ev : Event Pymysql) : option (list Row) :=
  match ev with
  | Ev o x =>
      match o as o' return PymysqlAns o' -> option (list Row) with
      | cursor_fetchall _ => fun r => match r with
                                      | inr rows => Some rows
                                      | inl _ => None
                                      end
      | _ => fun _ => None
      end x
  end.

Definition error_of {A} (r : Result A) : option PyExc :=
  match r with
  | inl e => Some e
  | inr _ => None
  end.

Definition raised_by (ev : Event Pymysql) : option PyExc :=
  match ev with
  | Ev o x =>
      match o as o' return PymysqlAns o' -> option PyExc with
      | pymysql_connect _ => error_of
      | connection_cursor _ => error_of
      | cursor_execute _ _ _ => error_of
      | cursor_fetchall _ => error_of
      | cursor_close _ => error_of
      | connection_rollback _ => error_of
      | connection_close _ => fun _ => None
      | logger _ _ => fun _ => None
      end x
  end.

Definition rollbacks (tr : list (Event Pymysql)) : list Connection :=
  omap rolled_back_by tr.
Definition fetched (tr : list (Event Pymysql)) : list (list Row) :=
  omap fetched_by tr.
Definition pymysql_errors (tr : list (Event Pymysql)) : list PyExc :=
  omap raised_by tr.

(** The discipline of a pymysql client, followed through a trace.  The
    state is the connection and the cursor currently open.  A call is
    refused ([None]) when it acquires a connection while one is open,
    creates a cursor while one is open, uses a connection or a cursor
    other than the open one, or rolls back or closes the connection while
    its cursor is still open.  A cursor counts as closed once its
    [close()] was called, also when that raised. *)
Definition Open : Type := option Connection * option Cursor.

Definition same {A} `{EqDecision A} (x : A) (o : option A) : bool :=
  bool_decide (o = Some x).

Definition protocol_step (st : Open) (ev : Event Pymysql) : option Open :=
  match ev with
  | Ev o x =>
      match o as o' return PymysqlAns o' -> option Open with
      | pymysql_connect _ => fun r =>
          match st, r with
          | (None, None), inr c => Some (Some c, None)
          | (None, None), inl _ => Some st
          | _, _ => None
          end
      | connection_cursor c => fun r =>
          match st.2, r with
          | None, inr cur => if same c st.1 then Some (st.1, Some cur) else None
          | None, inl _ => if same c st.1 then Some st else None
          | Some _, _ => None
          end
      | cursor_execute cur _ _ => fun _ => if same cur st.2 then Some st else None
      | cursor_fetchall cur => fun _ => if same cur st.2 then Some st else None
      | cursor_close cur => fun _ => if same cur st.2 then Some (st.1, None) else None
      | connection_rollback c => fun _ =>
          match st.2 with
          | None => if same c st.1 then Some st else None
          | Some _ => None
          end
      | connection_close c => fun _ =>
          match st.2 with
          | None => if same c st.1 then Some (None, None) else None
          | Some _ => None
          end
      | logger _ _ => fun _ => Some st
      end x
  end.

Fixpoint protocol (st : Open) (tr : list (Event Pymysql)) : option Open :=
  match tr with
  | [] => Some st
  | ev :: tr' =>
      match protocol_step st ev with
      | Some st' => protocol st' tr'
      | None => None
      end
  end.

End database.

(** One call into a collaborator whose answer is read as a result. *)
Definition call {I A} (o : Op I) (conv : Ans I o -> Result A) : Py I A :=
  Do o (fun x => Ret (conv x)).

(** ** [app/services/workout_service.py]: the lookup service *)

Module workout_service.
Import models.
Local Open Scope py_scope.

(** What the service asks of [self.db] and of its logger. *)
Inductive DbOp : Type :=
| db_execute_single (query : string) (params : option Row)
| db_execute_query (query : string) (params : option Row)
| logger (lvl : Level) (msg : string).

Definition DbAns (o : DbOp) : Type :=
  match o with
  | db_execute_single _ _ => Result (option Row)
  | db_execute_query _ _ => Result (list Row)
  | logger _ _ => unit
  end.

Definition Db : Interface := {| Op := DbOp; Ans := DbAns |}.

Definition execute_single (query : string) (params : option Row)
  : Py Db (option Row) :=
  call (db_execute_single query params : Op Db) id.

Definition execute_query (query : string) (params : option Row)
  : Py Db (list Row) :=
  call (db_execute_query query params : Op Db) id.

Definition log (lvl : Level) (msg : string) : Py Db unit :=
  call (logger lvl msg : Op Db) inr.

Definition workout_query : string :=
"
                SELECT 
                    w.workout_date,
                    w.url_slug,
                    w.qic_name,
                    w.qic_f3_name
                FROM workouts w
                WHERE w.workout_date = %(workout_date)s 
                AND w.url_slug = %(url_slug)s
                LIMIT 1
            ".

Definition pax_query : string :=
"
            SELECT 
                p.pax_name,
                p.f3_name
            FROM workout_pax wp
            JOIN pax p ON wp.pax_id = p.id
            JOIN workouts w ON wp.workout_id = w.id
            WHERE w.workout_date = %(workout_date)s 
            AND w.url_slug = %(url_slug)s
        ".

Definition aos_query : string :=
"
            SELECT 
                a.aos_name,
                a.description
            FROM workout_aos wa
            JOIN aos a ON wa.aos_id = a.id  
            JOIN workouts w ON wa.workout_id = w.id
            WHERE w.workout_date = %(workout_date)s
            AND w.url_slug = %(url_slug)s
        ".

(** [{"workout_date": workout_date, "url_slug": url_slug}] *)
Definition query_params (workout_date : datetime.date) (url_slug : string) : Row :=
  {[ "workout_date" := VDate workout_date; "url_slug" := VStr url_slug ]}.

Section WithPydantic.
Context `{Pydantic}.

(** [PAXModel(name=row["pax_name"], f3_name=row.get("f3_name"))] *)
Definition pax_of_row (row : Row) : Result PAXModel.t :=
  res_bind (getitem row "pax_name") (fun name =>
  PAXModel.new name (get row "f3_name")).

(** [AOSModel(name=row["aos_name"], description=row.get("description"))] *)
Definition aos_of_row (row : Row) : Result AOSModel.t :=
  res_bind (getitem row "aos_name") (fun name =>
  AOSModel.new name (get row "description")).

Definition _get_pax_for_workout (workout_date : datetime.date) (url_slug : string)
  : Py Db (list PAXModel.t) :=
  pax_data <- execute_query pax_query (Some (query_params workout_date url_slug)) ;;
  py_lift (res_mapM pax_of_row pax_data).

Definition _get_aos_for_workout (workout_date : datetime.date) (url_slug : string)
  : Py Db (list AOSModel.t) :=
  aos_data <- execute_query aos_query (Some (query_params workout_date url_slug)) ;;
  py_lift (res_mapM aos_of_row aos_data).

(** [QICModel(name=workout_data["qic_name"],
              f3_name=workout_data.get("qic_f3_name"))] *)
Definition qic_of_row (workout_data : Row) : Result QICModel.t :=
  res_bind (getitem workout_data "qic_name") (fun name =>
  QICModel.new name (get workout_data "qic_f3_name")).

(** [WorkoutModel(workout_date=workout_data["workout_date"], qic=qic,
                  pax=pax_list, aos=aos_list,
                  url_slug=workout_data["url_slug"])] *)
Definition workout_of_row (workout_data : Row) (qic : QICModel.t)
    (pax_list : list PAXModel.t) (aos_list : list AOSModel.t)
  : Result WorkoutModel.t :=
  res_bind (getitem workout_data "workout_date") (fun workout_date =>
  res_bind (getitem workout_data "url_slug") (fun url_slug =>
  WorkoutModel.new workout_date qic pax_list aos_list url_slug)).

(** [not workout_data]: [None] and the empty dict are falsy. *)
Definition falsy (workout_data : option Row) : bool :=
  match workout_data with
  | None => true
  | Some row => bool_decide (row = ∅)
  end.

Definition get_workout_by_date_and_slug (workout_date : datetime.date)
    (url_slug : string) : Py Db (option WorkoutModel.t) :=
  try_except
    (workout_data <- execute_single workout_query
                       (Some (query_params workout_date url_slug)) ;;
     if falsy workout_data then
       log INFO ("No workout found for date " +:+ datetime.isoformat workout_date
                 +:+ " and slug " +:+ url_slug) ;;
       py_ret None
     else
       let row := default ∅ workout_data in
       pax_list <- _get_pax_for_workout workout_date url_slug ;;
       aos_list <- _get_aos_for_workout workout_date url_slug ;;
       qic <- py_lift (qic_of_row row) ;;
       workout <- py_lift (workout_of_row row qic pax_list aos_list) ;;
       log INFO ("Retrieved workout data for " +:+ datetime.isoformat workout_date
                 +:+ " - " +:+ url_slug) ;;
       py_ret (Some workout))
    (fun e =>
       log ERROR ("Error retrieving workout data: " +:+ str_exc e) ;;
       py_raise e).

End WithPydantic.

(** [result is not None and result.get("status") == 1] *)
Definition status_is_1 (result : option Row) : bool :=
  match result with
  | None => false
  | Some row => bool_decide (get row "status" = VInt 1)
  end.

Definition health_check : Py Db bool :=
  try_except
    (result <- execute_single "SELECT 1 as status" None ;;
     py_ret (status_is_1 result))
    (fun e =>
       log ERROR ("Health check failed: " +:+ str_exc e) ;;
       py_ret false).

(** The calls made on [self.db] in a trace, in order. *)
Definition is_db_call (ev : Event Db) : option DbOp :=
  match ev_op ev : DbOp with
  | logger _ _ => None
  | o => Some o
  end.

Definition db_calls (tr : list (Event Db)) : list DbOp := omap is_db_call tr.

End workout_service.

(** ** [app/api/workouts.py]: the HTTP surface *)

Module workouts.
Import models.
Local Open Scope py_scope.

(** What an endpoint asks of the injected [workout_service] and of its
    logger.  A service method returns or raises. *)
Inductive SvcOp : Type :=
| svc_get_workout_by_date_and_slug (workout_date : datetime.date) (url_slug : string)
| svc_health_check
| logger (lvl : Level) (msg : string).

Definition SvcAns (o : SvcOp) : Type :=
  match o with
  | svc_get_workout_by_date_and_slug _ _ => Result (option WorkoutModel.t)
  | svc_health_check => Result bool
  | logger _ _ => unit
  end.

Definition Svc : Interface := {| Op := SvcOp; Ans := SvcAns |}.

Definition log (lvl : Level) (msg : string) : Py Svc unit :=
  call (logger lvl msg : Op Svc) inr.

Definition HTTP_400_BAD_REQUEST : Z := 400.
Definition HTTP_500_INTERNAL_SERVER_ERROR : Z := 500.
Definition HTTP_503_SERVICE_UNAVAILABLE : Z := 503.

(** The dict [health_check] returns. *)
Definition health_payload (db_healthy : bool) : gmap string string :=
  {[ "status" := if db_healthy then "healthy" else "unhealthy";
     "service" := "f3rva-workout-service";
     "database" := if db_healthy then "connected" else "disconnected" ]}.

Definition health_check : Py Svc (gmap string string) :=
  try_except
    (db_healthy <- call (svc_health_check : Op Svc) id ;;
     py_ret (health_payload db_healthy))
    (fun e =>
       log ERROR ("Health check failed: " +:+ str_exc e) ;;
       py_raise (HTTPException HTTP_503_SERVICE_UNAVAILABLE "Service unavailable")).

(** The part both lookup endpoints share word for word in the source is
    written out in each of them, as there. *)
Definition get_workout (year month day : Z) (url_slug : string)
  : Py Svc WorkoutResponse.t :=
  if negb ((2000 <=? year) && (year <=? 9999)) then
    py_raise (HTTPException HTTP_400_BAD_REQUEST "Year must be between 2000 and 9999")
  else if negb ((1 <=? month) && (month <=? 12)) then
    py_raise (HTTPException HTTP_400_BAD_REQUEST "Month must be between 1 and 12")
  else if negb ((1 <=? day) && (day <=? 31)) then
    py_raise (HTTPException HTTP_400_BAD_REQUEST "Day must be between 1 and 31")
  else
    workout_date <-
      try_except_ValueError
        (py_lift (datetime.new year month day))
        (fun e => py_raise (HTTPException HTTP_400_BAD_REQUEST
                              ("Invalid date: " +:+ str_exc e))) ;;
    try_except
      (workout <- call (svc_get_workout_by_date_and_slug workout_date url_slug
                        : Op Svc) id ;;
       match workout with
       | None =>
           py_ret {| WorkoutResponse.success := false;
                     WorkoutResponse.message :=
                       Some ("No workout found for "
                             +:+ datetime.isoformat workout_date
                             +:+ " with slug '" +:+ url_slug +:+ "'");
                     WorkoutResponse.data := None |}
       | Some w =>
           py_ret {| WorkoutResponse.success := true;
                     WorkoutResponse.message :=
                       Some "Workout data retrieved successfully";
                     WorkoutResponse.data := Some w |}
       end)
      (fun e =>
         log ERROR ("Error retrieving workout: " +:+ str_exc e) ;;
         py_raise (HTTPException HTTP_500_INTERNAL_SERVER_ERROR
                     "Internal server error")).

Definition search_workout (request : WorkoutRequest.t)
  : Py Svc WorkoutResponse.t :=
  workout_date <-
    try_except_ValueError
      (py_lift (datetime.new (WorkoutRequest.year request)
                  (WorkoutRequest.month request) (WorkoutRequest.day request)))
      (fun e => py_raise (HTTPException HTTP_400_BAD_REQUEST
                            ("Invalid date: " +:+ str_exc e))) ;;
  try_except
    (workout <- call (svc_get_workout_by_date_and_slug workout_date
                        (WorkoutRequest.url_slug request) : Op Svc) id ;;
     match workout with
     | None =>
         py_ret {| WorkoutResponse.success := false;
                   WorkoutResponse.message :=
                     Some ("No workout found for "
                           +:+ datetime.isoformat workout_date
                           +:+ " with slug '"
                           +:+ WorkoutRequest.url_slug request +:+ "'");
                   WorkoutResponse.data := None |}
     | Some w =>
         py_ret {| WorkoutResponse.success := true;
                   WorkoutResponse.message :=
                     Some "Workout data retrieved successfully";
                   WorkoutResponse.data := Some w |}
     end)
    (fun e =>
       log ERROR ("Error retrieving workout: " +:+ str_exc e) ;;
       py_raise (HTTPException HTTP_500_INTERNAL_SERVER_ERROR
                   "Internal server error")).

(** *** The endpoints, as FastAPI serves them *)

Inductive Body : Type :=
| json_envelope (r : WorkoutResponse.t)
| json_dict (d : gmap string string)
| json_detail (detail : string)
| json_validation_errors
| text_internal_server_error
| empty_body.

Record Response : Type := { status_code : Z; body : Body }.

(** A returned value is sent with status 200, an [HTTPException] with its
    own status and detail, anything else as a bare 500. *)
Definition respond {A} (render : A -> Body) (r : Result A) : Response :=
  match r with
  | inr a => {| status_code := 200; body := render a |}
  | inl (HTTPException code detail) =>
      {| status_code := code; body := json_detail detail |}
  | inl _ => {| status_code := 500; body := text_internal_server_error |}
  end.

(** [GET /health] *)
Definition GET_health : Prog Svc Response :=
  bind health_check (fun r => Ret (respond json_dict r)).

(** [get_workout] as FastAPI runs it for a request its route has
    matched, with the values of the path parameters for arguments. *)
Definition GET_workout (year month day : Z) (url_slug : string)
  : Prog Svc Response :=
  bind (get_workout year month day url_slug) (fun r =>
  Ret (respond json_envelope r)).

(** [POST /workouts/search]: the body is validated against
    [WorkoutRequest] before the handler runs; a body that violates a field
    constraint is answered 422. *)
Definition POST_search (request : WorkoutRequest.t) : Prog Svc Response :=
  if WorkoutRequest.valid request then
    bind (search_workout request) (fun r => Ret (respond json_envelope r))
  else Ret {| status_code := 422; body := json_validation_errors |}.

(** *** The router

    [@router.get("/workouts/{year}/{month}/{day}/{url_slug}")]: the path
    is compiled to a regular expression in which each parameter stands
    for [[^/]+] and which has to match the whole path of the request.  The
    value of a parameter is therefore one segment of the path, not empty
    and free of ["/"]. *)
Fixpoint has_slash (s : string) : bool :=
  match s with
  | EmptyString => false
  | String c s' => Ascii.eqb c "/" || has_slash s'
  end.

Definition path_param (segment : string) : bool :=
  negb (String.eqb segment "") && negb (has_slash segment).

(** [s.rstrip("/")] *)
Fixpoint rstrip_slash (s : string) : string :=
  match s with
  | EmptyString => EmptyString
  | String c s' =>
      match rstrip_slash s' with
      | EmptyString => if Ascii.eqb c "/" then EmptyString else String c EmptyString
      | rest => String c rest
      end
  end.

(** A [GET] request whose path, as the application receives it
    (percent-decoded), is made of the route's prefix, of three decimal
    numbers that FastAPI converts to [year], [month] and [day], and of
    [url_slug].  The numbers are segments, so that the path matches the
    route when [url_slug] is one; the handler then runs on the three
    integers and on the slug.  A path that matches no route is answered by
    the router, which [create_app] leaves with its default
    [redirect_slashes]: 307 to the path without its trailing slashes when
    that one matches, 404 otherwise.  No handler runs in either case. *)
Definition GET_route (year month day : Z) (url_slug : string)
  : Prog Svc Response :=
  if path_param url_slug then GET_workout year month day url_slug
  else if path_param (rstrip_slash url_slug) then
    Ret {| status_code := 307; body := empty_body |}
  else Ret {| status_code := 404; body := json_detail "Not Found" |}.

(** A request that has reached one of the two lookup endpoints, or any
    endpoint. *)
Inductive Lookup : Type :=
| by_path (year month day : Z) (url_slug : string)
| by_body (request : WorkoutRequest.t).

Inductive Request : Type :=
| health
| lookup (l : Lookup).

(** The handler a lookup request reaches. *)
Definition lookup_handler (l : Lookup) : Py Svc WorkoutResponse.t :=
  match l with
  | by_path year month day url_slug => get_workout year month day url_slug
  | by_body request => search_workout request
  end.

Definition route (req : Request) : Prog Svc Response :=
  match req with
  | health => GET_health
  | lookup (by_path year month day url_slug) => GET_workout year month day url_slug
  | lookup (by_body request) => POST_search request
  end.

(** The invariant of a response envelope. *)
Definition envelope_ok (resp : WorkoutResponse.t) : Prop :=
  (WorkoutResponse.success resp = true -> WorkoutResponse.data resp <> None) /\
  (WorkoutResponse.success resp = false ->
   WorkoutResponse.data resp = None /\
   exists m, WorkoutResponse.message resp = Some m /\ m <> "").

(** The service calls of a trace, the exceptions the service raised and
    the lines the endpoint logged, each in order. *)
Definition is_service_call (ev : Event Svc) : option SvcOp :=
  match ev_op ev : SvcOp with
  | logger _ _ => None
  | o => Some o
  end.

Definition service_raised (ev : Event Svc) : option PyExc :=
  match ev with
  | Ev o x =>
      match o as o' return SvcAns o' -> option PyExc with
      | svc_get_workout_by_date_and_slug _ _ =>
          fun r => match r with inl e => Some e | inr _ => None end
      | svc_health_check =>
          fun r => match r with inl e => Some e | inr _ => None end
      | logger _ _ => fun _ => None
      end x
  end.

Definition lookup_returned (ev : Event Svc) : option (option WorkoutModel.t) :=
  match ev with
  | Ev o x =>
      match o as o' return SvcAns o' -> option (option WorkoutModel.t) with
      | svc_get_workout_by_date_and_slug _ _ =>
          fun r => match r with inl _ => None | inr w => Some w end
      | _ => fun _ => None
      end x
  end.

Definition endpoint_logged (ev : Event Svc) : option (Level * string) :=
  match ev_op ev : SvcOp with
  | logger lvl msg => Some (lvl, msg)
  | _ => None
  end.

Definition service_calls (tr : list (Event Svc)) : list SvcOp :=
  omap is_service_call tr.
Definition service_errors (tr : list (Event Svc)) : list PyExc :=
  omap service_raised tr.
Definition lookups_returned (tr : list (Event Svc)) : list (option WorkoutModel.t) :=
  omap lookup_returned tr.
Definition endpoint_log (tr : list (Event Svc)) : list (Level * string) :=
  omap endpoint_logged tr.

End workouts.

(** ** The HTTP surface over the lookup service *)

Module app.
Import models.

(** [Depends(get_workout_service)]: the service methods stand behind the
    calls of the HTTP layer; both layers log through the same logging
    system. *)
Definition get_workout_service `{Pydantic} (o : workouts.SvcOp)
  : Prog workout_service.Db (workouts.SvcAns o) :=
  match o with
  | workouts.svc_get_workout_by_date_and_slug workout_date url_slug =>
      workout_service.get_workout_by_date_and_slug workout_date url_slug
  | workouts.svc_health_check => workout_service.health_check
  | workouts.logger lvl msg =>
      Do (workout_service.logger lvl msg : Op workout_service.Db) Ret
  end.

Definition serve `{Pydantic} {A} (p : Prog workouts.Svc A)
  : Prog workout_service.Db A :=
  interp (get_workout_service : forall o : Op workouts.Svc, _) p.

(** The errors the gateway raised during a run, and the lines logged. *)
Definition raised_by (ev : Event workout_service.Db) : option PyExc :=
  match ev with
  | Ev o x =>
      match o as o' return workout_service.DbAns o' -> option PyExc with
      | workout_service.db_execute_single _ _ =>
          fun r => match r with inl e => Some e | inr _ => None end
      | workout_service.db_execute_query _ _ =>
          fun r => match r with inl e => Some e | inr _ => None end
      | workout_service.logger _ _ => fun _ => None
      end x
  end.

Definition logged_by (ev : Event workout_service.Db) : option (Level * string) :=
  match ev_op ev : workout_service.DbOp with
  | workout_service.logger lvl msg => Some (lvl, msg)
  | _ => None
  end.

Definition gateway_errors (tr : list (Event workout_service.Db)) : list PyExc :=
  omap raised_by tr.

Definition logged (tr : list (Event workout_service.Db)) : list (Level * string) :=
  omap logged_by tr.

(** The gateway calls of a trace that raised. *)
Definition failed_by (ev : Event workout_service.Db)
  : option workout_service.DbOp :=
  match raised_by ev with
  | Some _ => Some (ev_op ev : workout_service.DbOp)
  | None => None
  end.

Definition failed_calls (tr : list (Event workout_service.Db))
  : list workout_service.DbOp :=
  omap failed_by tr.

End app.

(** ** The whole stack: HTTP surface, lookup service, gateway *)

Module stack.
Import models.

(** [WorkoutService(db_connection)]: the calls on [self.db] are the
    methods of the [DatabaseConnection]; all loggers write to the same
    logging system. *)
Definition WorkoutService (o : workout_service.DbOp)
    (db : database.DatabaseConnection)
  : Prog database.Pymysql (workout_service.DbAns o * database.DatabaseConnection) :=
  match o with
  | workout_service.db_execute_single query params =>
      database.execute_single query params db
  | workout_service.db_execute_query query params =>
      database.execute_query query params db
  | workout_service.logger lvl msg =>
      Do (database.logger lvl msg : Op database.Pymysql) (fun x => Ret (x, db))
  end.

(** A program of the service layer run on the gateway object [db]. *)
Definition on_gateway {A} (p : Prog workout_service.Db A)
    (db : database.DatabaseConnection)
  : Prog database.Pymysql (A * database.DatabaseConnection) :=
  interp_state (WorkoutService : forall o : Op workout_service.Db, _) p db.

(** A request served end to end: [get_workout_service] builds, for this
    request, a service on a new [DatabaseConnection(DatabaseConfig.from_env())]. *)
Definition request `{Pydantic} (req : workouts.Request)
  : Prog database.Pymysql (workouts.Response * database.DatabaseConnection) :=
  on_gateway (app.serve (workouts.route req)) (database.init database.from_env).

End stack.

(** ** [lambda_handler.py] *)

Module lambda_handler.
Local Open Scope py_scope.

(** The values of an event or of a response: [None], strings, integers
    and nested dicts. *)
#[warnings="-register-all"]
Inductive any : Type :=
| ANone
| AStr (s : string)
| AInt (z : Z)
| ADict (items : gmap string any).

(** What the entry point asks of the Mangum adapter and of its logger. *)
Inductive LambdaOp : Type :=
| handler (event : gmap string any) (context : any)
| logger (lvl : Level) (msg : string).

Definition LambdaAns (o : LambdaOp) : Type :=
  match o with
  | handler _ _ => Result (gmap string any)
  | logger _ _ => unit
  end.

Definition Lambda : Interface := {| Op := LambdaOp; Ans := LambdaAns |}.

Definition log (lvl : Level) (msg : string) : Py Lambda unit :=
  call (logger lvl msg : Op Lambda) inr.

(** [d.get(key)] *)
Definition get (d : gmap string any) (key : string) : any :=
  default ANone (d !! key).

(** The double quote character. *)
Definition dq : string := String "034"%char "".

(** The response returned when the adapter raises. *)
Definition error_response : gmap string any :=
  {[ "statusCode" := AInt 500;
     "headers" := ADict {[ "Content-Type" := AStr "application/json" ]};
     "body" := AStr ("{" +:+ dq +:+ "error" +:+ dq +:+ ": " +:+ dq
                     +:+ "Internal server error" +:+ dq +:+ "}") ]}.

Section WithStr.
(** [str(v)] of the f-strings, whose text for a dict is left open. *)
Context (str_any : any -> string).

Definition lambda_handler (event : gmap string any) (context : any)
  : Py Lambda (gmap string any) :=
  log INFO ("Processing Lambda event: " +:+ str_any (get event "httpMethod")
            +:+ " " +:+ str_any (get event "path")) ;;
  try_except
    (response <- call (handler event context : Op Lambda) id ;;
     log INFO ("Lambda response status: " +:+ str_any (get response "statusCode")) ;;
     py_ret response)
    (fun e =>
       log ERROR ("Lambda handler error: " +:+ str_exc e) ;;
       py_ret error_response).

End WithStr.

(** What the adapter answered, and the lines logged, in a trace. *)
Definition answered_by (ev : Event Lambda) : option (Result (gmap string any)) :=
  match ev with
  | Ev o x =>
      match o as o' return LambdaAns o' -> option (Result (gmap string any)) with
      | handler _ _ => fun r => Some r
      | logger _ _ => fun _ => None
      end x
  end.

Definition logged_by (ev : Event Lambda) : option (Level * string) :=
  match ev_op ev : LambdaOp with
  | logger lvl msg => Some (lvl, msg)
  | _ => None
  end.

Definition answers (tr : list (Event Lambda)) : list (Result (gmap string any)) :=
  omap answered_by tr.
Definition logged (tr : list (Event Lambda)) : list (Level * string) :=
  omap logged_by tr.

End lambda_handler.

(** ** Test doubles

    The collaborators the unit tests patch in, used below to run the
    model on concrete requests. *)

Module mocks.
Import models.

(** pydantic accepting exactly a string for [str] and a date for [date],
    with the first line of a report for its text. *)
Definition strict : Pydantic :=
  {| validate_str v := match v with VStr s => Some s | _ => None end;
     validate_date v := match v with VDate d => Some d | _ => None end;
     validation_report title inputs := "1 validation error for " +:+ title |}.

(** A lookup service with fixed return values. *)
Definition mock_service (lookup : Result (option WorkoutModel.t))
    (healthy : Result bool) : Handler workouts.Svc unit :=
  fun o s =>
    match o as o' return workouts.SvcAns o' * unit with
    | workouts.svc_get_workout_by_date_and_slug _ _ => (lookup, s)
    | workouts.svc_health_check => (healthy, s)
    | workouts.logger _ _ => (tt, s)
    end.

(** A gateway answering [execute_single] with [single] and the participant
    and activity-segment queries with [pax] and [aos]. *)
Definition mock_db (single : Result (option Row)) (pax aos : Result (list Row))
  : Handler workout_service.Db unit :=
  fun o s =>
    match o as o' return workout_service.DbAns o' * unit with
    | workout_service.db_execute_single _ _ => (single, s)
    | workout_service.db_execute_query query _ =>
        (if String.eqb query workout_service.pax_query then pax else aos, s)
    | workout_service.logger _ _ => (tt, s)
    end.

(** A gateway that cannot reach the database. *)
Definition db_down : Handler workout_service.Db unit :=
  mock_db (inl (Exception_ "(2003, 'Can not connect to MySQL server')"))
          (inl (Exception_ "(2003, 'Can not connect to MySQL server')"))
          (inl (Exception_ "(2003, 'Can not connect to MySQL server')")).

(** The rows of [test_get_workout_by_date_and_slug_success]. *)
Definition workout_data : Row :=
  {[ "workout_date" := VDate (datetime.mkdate 2024 1 15);
     "url_slug" := VStr "test-workout";
     "qic_name" := VStr "Ripken";
     "qic_f3_name" := VStr "Cal Ripken Jr." ]}.

Definition pax_data : list Row :=
  [ {[ "pax_name" := VStr "Donatello"; "f3_name" := VStr "Donatello TMNT" ]};
    {[ "pax_name" := VStr "Leonardo"; "f3_name" := VNone ]} ].

Definition aos_data : list Row :=
  [ {[ "aos_name" := VStr "Warm-Up"; "description" := VStr "Getting loose" ]};
    {[ "aos_name" := VStr "The Thang"; "description" := VStr "Main event" ]} ].

Definition test_workout : WorkoutModel.t :=
  {| WorkoutModel.workout_date := datetime.mkdate 2024 1 15;
     WorkoutModel.qic :=
       {| QICModel.name := "Ripken"; QICModel.f3_name := Some "Cal Ripken Jr." |};
     WorkoutModel.pax :=
       [ {| PAXModel.name := "Donatello"; PAXModel.f3_name := Some "Donatello TMNT" |};
         {| PAXModel.name := "Leonardo"; PAXModel.f3_name := None |} ];
     WorkoutModel.aos :=
       [ {| AOSModel.name := "Warm-Up"; AOSModel.description := Some "Getting loose" |};
         {| AOSModel.name := "The Thang"; AOSModel.description := Some "Main event" |} ];
     WorkoutModel.url_slug := "test-workout" |}.

(** pymysql with a server that accepts connections and returns [rows]
    for every statement; connections and cursors are numbered by the
    handler's counter. *)
Definition pymysql_up (rows : list Row) : Handler database.Pymysql nat :=
  fun o n =>
    match o as o' return database.PymysqlAns o' * nat with
    | database.pymysql_connect _ => (inr n, S n)
    | database.connection_cursor _ => (inr n, S n)
    | database.cursor_execute _ _ _ => (inr tt, n)
    | database.cursor_fetchall _ => (inr rows, n)
    | database.cursor_close _ => (inr tt, n)
    | database.connection_rollback _ => (inr tt, n)
    | database.connection_close _ => (tt, n)
    | database.logger _ _ => (tt, n)
    end.

(** pymysql with an unreachable server: [connect] raises. *)
Definition pymysql_down : Handler database.Pymysql nat :=
  fun o n =>
    match o as o' return database.PymysqlAns o' * nat with
    | database.pymysql_connect _ =>
        (inl (Exception_ "(2003, 'Can not connect to MySQL server')"), n)
    | database.connection_cursor _ => (inr n, S n)
    | database.cursor_execute _ _ _ => (inr tt, n)
    | database.cursor_fetchall _ => (inr [], n)
    | database.cursor_close _ => (inr tt, n)
    | database.connection_rollback _ => (inr tt, n)
    | database.connection_close _ => (tt, n)
    | database.logger _ _ => (tt, n)
    end.

(** A Mangum adapter with a fixed outcome, and a [str()] for the values
    the log lines print. *)
Definition mock_mangum (outcome : Result (gmap string lambda_handler.any))
  : Handler lambda_handler.Lambda unit :=
  fun o s =>
    match o as o' return lambda_handler.LambdaAns o' * unit with
    | lambda_handler.handler _ _ => (outcome, s)
    | lambda_handler.logger _ _ => (tt, s)
    end.

Definition str_any (v : lambda_handler.any) : string :=
  match v with
  | lambda_handler.ANone => "None"
  | lambda_handler.AStr s => s
  | lambda_handler.AInt z => pretty z
  | lambda_handler.ADict _ => "{...}"
  end.

End mocks.

(** * Properties *)

Unset Implicit Arguments.
Import models.

(** ** Running programs *)

Lemma run_bind {I St A B} (h : Handler I St) (p : Prog I A) (f : A -> Prog I B) s :
  run h (bind p f) s =
  Build_Run (outcome (run h (f (outcome (run h p s))) (final (run h p s))))
            (final (run h (f (outcome (run h p s))) (final (run h p s))))
            (trace (run h p s) ++
             trace (run h (f (outcome (run h p s))) (final (run h p s)))).
Proof.
  revert s. induction p as [a|o k IH]; intros s; cbn.
  - by destruct (run h (f a) s).
  - by rewrite IH.
Qed.

(** Proof steps: name the answer of the handler to the next call, and
    simplify a run without unfolding the SQL texts. *)
Ltac answer h :=
  match goal with
  | |- context [h ?o ?s] =>
      let E := fresh "E" in
      let a := fresh "ans" in
      destruct (h o s) as [a ?] eqn:E; cbn [fst snd]
  end.

Ltac unfold_service :=
  unfold workout_service.get_workout_by_date_and_slug,
    workout_service.health_check,
    workout_service._get_pax_for_workout, workout_service._get_aos_for_workout,
    workout_service.execute_single, workout_service.execute_query,
    workout_service.log, try_except, py_bind, call, py_lift, py_ret, py_raise.

Ltac run_cbn :=
  cbn -[workout_service.workout_query workout_service.pax_query
        workout_service.aos_query workout_service.query_params
        workout_service.get_workout_by_date_and_slug
        app.gateway_errors app.logged].

(** A comprehension that returns has mapped its elements one by one. *)
Lemma res_mapM_Forall2 {A B} (f : A -> Result B) l l' :
  res_mapM f l = inr l' <-> Forall2 (fun x y => f x = inr y) l l'.
Proof.
  revert l'. induction l as [|x l IH]; intros l'; cbn.
  - split.
    + intros [= <-]. constructor.
    + by inversion 1.
  - split.
    + destruct (f x) as [e|y] eqn:Hx; cbn; [done|].
      destruct (res_mapM f l) as [e|ys] eqn:Hl; cbn; [done|].
      intros [= <-]. constructor; [done|]. by apply IH.
    + inversion 1 as [|? y ? ys Hx Hl]; subst.
      apply IH in Hl. by rewrite Hx, Hl.
Qed.

(** ** The lookup service: absence *)

(** C1.  If the session-header query returns no row,
    [get_workout_by_date_and_slug] returns [None], and the header query is
    the only call made on the gateway: the participant and the
    activity-segment queries are not issued. *)
Theorem find_workout_absent `{Pydantic} St (h : Handler workout_service.Db St)
    (s s1 : St) (workout_date : datetime.date) (url_slug : string) :
  h (workout_service.db_execute_single workout_service.workout_query
       (Some (workout_service.query_params workout_date url_slug))) s
    = (inr None, s1) ->
  let r := run h (workout_service.get_workout_by_date_and_slug workout_date url_slug) s in
  outcome r = inr None /\
  workout_service.db_calls (trace r) =
    [workout_service.db_execute_single workout_service.workout_query
       (Some (workout_service.query_params workout_date url_slug))].
Proof.
  intros Hhdr r. subst r.
  unfold workout_service.get_workout_by_date_and_slug, try_except, py_bind.
  run_cbn. rewrite Hhdr. done.
Qed.

Lemma find_workout_absent_witness :
  let r := run (mocks.mock_db (inr None) (inr mocks.pax_data) (inr mocks.aos_data))
             (workout_service.get_workout_by_date_and_slug (H := mocks.strict)
                (datetime.mkdate 2024 1 15) "nonexistent-workout") tt in
  outcome r = inr None /\
  workout_service.db_calls (trace r) =
    [workout_service.db_execute_single workout_service.workout_query
       (Some (workout_service.query_params (datetime.mkdate 2024 1 15)
                "nonexistent-workout"))].
Proof.
  apply (find_workout_absent (H := mocks.strict) unit
           (mocks.mock_db (inr None) (inr mocks.pax_data) (inr mocks.aos_data))
           tt tt (datetime.mkdate 2024 1 15) "nonexistent-workout").
  reflexivity.
Defined.

(** ** The HTTP surface: envelopes and validation *)

(** What the two lookup handlers do once they hold a date: one service
    call, whose answer decides the envelope or the 500. *)
Lemma lookup_outcome St (h : Handler workouts.Svc St) (s : St) (l : workouts.Lookup)
    (resp : WorkoutResponse.t) :
  outcome (run h (workouts.lookup_handler l) s) = inr resp ->
  (WorkoutResponse.success resp = false /\ WorkoutResponse.data resp = None /\
   exists d slug,
     WorkoutResponse.message resp =
       Some ("No workout found for " +:+ datetime.isoformat d
             +:+ " with slug '" +:+ slug +:+ "'")) \/
  (WorkoutResponse.success resp = true /\
   exists w, WorkoutResponse.data resp = Some w).
Proof.
  destruct l as [year month day url_slug|request]; cbn;
    unfold workouts.get_workout, workouts.search_workout,
      try_except_ValueError, try_except, py_bind, py_raise, py_lift, py_ret, call.
  - repeat (case_match; cbn; try discriminate).
    all: intros [= <-]; cbn; eauto 8.
  - repeat (case_match; cbn; try discriminate).
    all: intros [= <-]; cbn; eauto 8.
Qed.

(** C2.  Every envelope either lookup endpoint produces satisfies:
    [success = true] implies a non-null [data]; [success = false] implies
    a null [data] and a non-empty [message]. *)
Theorem envelope_invariant St (h : Handler workouts.Svc St) (s : St)
    (l : workouts.Lookup) (resp : WorkoutResponse.t) :
  outcome (run h (workouts.lookup_handler l) s) = inr resp ->
  workouts.envelope_ok resp.
Proof.
  intros Hrun. apply lookup_outcome in Hrun.
  destruct Hrun as [(Hs & Hd & d & slug & Hm)|(Hs & w & Hd)]; split.
  - rewrite Hs. discriminate.
  - intros _. split; [done|]. eexists. split; [exact Hm|]. discriminate.
  - intros _. rewrite Hd. discriminate.
  - rewrite Hs. discriminate.
Qed.

Lemma envelope_invariant_witness :
  workouts.envelope_ok
    {| WorkoutResponse.success := false;
       WorkoutResponse.message :=
         Some "No workout found for 2024-01-15 with slug 'nonexistent-workout'";
       WorkoutResponse.data := None |}.
Proof.
  apply (envelope_invariant unit (mocks.mock_service (inr None) (inr true)) tt
           (workouts.by_path 2024 1 15 "nonexistent-workout")).
  vm_compute. reflexivity.
Defined.

(** Python's chained comparisons, as propositions. *)
Lemma between_true (lo x hi : Z) : (lo <=? x) && (x <=? hi) = true <-> lo <= x <= hi.
Proof. rewrite andb_true_iff, !Z.leb_le. tauto. Qed.

Lemma between_false (lo x hi : Z) : (lo <=? x) && (x <=? hi) = false <-> ~ lo <= x <= hi.
Proof. rewrite <- between_true. by destruct ((lo <=? x) && (x <=? hi)). Qed.

(** The first failing range check of the path endpoint, as a detail. *)
Lemma get_workout_out_of_bounds (year month day : Z) (url_slug : string) :
  ~ (2000 <= year <= 9999 /\ 1 <= month <= 12 /\ 1 <= day <= 31) ->
  exists detail,
    workouts.get_workout year month day url_slug
      = py_raise (HTTPException 400 detail) /\
    (~ 2000 <= year <= 9999 ->
       detail = "Year must be between 2000 and 9999") /\
    (2000 <= year <= 9999 -> ~ 1 <= month <= 12 ->
       detail = "Month must be between 1 and 12") /\
    (2000 <= year <= 9999 -> 1 <= month <= 12 -> ~ 1 <= day <= 31 ->
       detail = "Day must be between 1 and 31").
Proof.
  intros Hout. unfold workouts.get_workout.
  destruct ((2000 <=? year) && (year <=? 9999)) eqn:Hy; cbn [negb].
  2: { apply between_false in Hy.
       eexists. split; [reflexivity|]. repeat split; tauto. }
  apply between_true in Hy.
  destruct ((1 <=? month) && (month <=? 12)) eqn:Hm; cbn [negb].
  2: { apply between_false in Hm.
       eexists. split; [reflexivity|]. repeat split; tauto. }
  apply between_true in Hm.
  destruct ((1 <=? day) && (day <=? 31)) eqn:Hd; cbn [negb].
  2: { apply between_false in Hd.
       eexists. split; [reflexivity|]. repeat split; tauto. }
  apply between_true in Hd. tauto.
Qed.

(** C3.  A path request with a component outside its bounds is answered
    400 with the message of the first failing check, in the order year,
    month, day, and the endpoint calls nothing: neither the lookup service
    nor the logger. *)
Theorem path_bounds_rejected St (h : Handler workouts.Svc St) (s : St)
    (year month day : Z) (url_slug : string) :
  ~ (2000 <= year <= 9999 /\ 1 <= month <= 12 /\ 1 <= day <= 31) ->
  let r := run h (workouts.GET_workout year month day url_slug) s in
  exists detail,
    outcome r = {| workouts.status_code := 400;
                   workouts.body := workouts.json_detail detail |} /\
    trace r = [] /\
    (~ 2000 <= year <= 9999 ->
       detail = "Year must be between 2000 and 9999") /\
    (2000 <= year <= 9999 -> ~ 1 <= month <= 12 ->
       detail = "Month must be between 1 and 12") /\
    (2000 <= year <= 9999 -> 1 <= month <= 12 -> ~ 1 <= day <= 31 ->
       detail = "Day must be between 1 and 31").
Proof.
  intros Hout r. subst r.
  destruct (get_workout_out_of_bounds year month day url_slug Hout)
    as (detail & Heq & Hdetail).
  exists detail. unfold workouts.GET_workout. rewrite Heq. cbn. auto.
Qed.

Lemma path_bounds_rejected_witness :
  let r := run (mocks.mock_service (inr (Some mocks.test_workout)) (inr true))
             (workouts.GET_workout 2024 13 32 "test-workout") tt in
  exists detail,
    outcome r = {| workouts.status_code := 400;
                   workouts.body := workouts.json_detail detail |} /\
    trace r = [] /\
    (~ 2000 <= 2024 <= 9999 ->
       detail = "Year must be between 2000 and 9999") /\
    (2000 <= 2024 <= 9999 -> ~ 1 <= 13 <= 12 ->
       detail = "Month must be between 1 and 12") /\
    (2000 <= 2024 <= 9999 -> 1 <= 13 <= 12 -> ~ 1 <= 32 <= 31 ->
       detail = "Day must be between 1 and 31").
Proof.
  apply (path_bounds_rejected unit
           (mocks.mock_service (inr (Some mocks.test_workout)) (inr true)) tt
           2024 13 32 "test-workout").
  lia.
Defined.

(** Inside the field bounds the range checks of the path handler pass, and
    what remains of it is the body handler, statement for statement. *)
Lemma get_workout_in_bounds (year month day : Z) (url_slug : string) :
  2000 <= year <= 9999 -> 1 <= month <= 12 -> 1 <= day <= 31 ->
  workouts.get_workout year month day url_slug =
  workouts.search_workout
    {| WorkoutRequest.year := year; WorkoutRequest.month := month;
       WorkoutRequest.day := day; WorkoutRequest.url_slug := url_slug |}.
Proof.
  intros Hy Hm Hd. unfold workouts.get_workout, workouts.search_workout.
  apply between_true in Hy, Hm, Hd. rewrite Hy, Hm, Hd. reflexivity.
Qed.

Lemma request_valid (year month day : Z) (url_slug : string) :
  2000 <= year <= 9999 -> 1 <= month <= 12 -> 1 <= day <= 31 ->
  WorkoutRequest.valid
    {| WorkoutRequest.year := year; WorkoutRequest.month := month;
       WorkoutRequest.day := day; WorkoutRequest.url_slug := url_slug |} = true.
Proof.
  intros Hy Hm Hd. unfold WorkoutRequest.valid. cbn.
  rewrite !andb_true_iff, !Z.leb_le. lia.
Qed.

(** Once the route has matched, and inside the bounds, the path handler
    is served as the body handler is. *)
Lemma POST_search_as_GET_workout St (h : Handler workouts.Svc St) (s : St)
    (year month day : Z) (url_slug : string) :
  2000 <= year <= 9999 -> 1 <= month <= 12 -> 1 <= day <= 31 ->
  run h (workouts.POST_search
           {| WorkoutRequest.year := year; WorkoutRequest.month := month;
              WorkoutRequest.day := day; WorkoutRequest.url_slug := url_slug |}) s
  = run h (workouts.GET_workout year month day url_slug) s.
Proof.
  intros Hy Hm Hd. unfold workouts.POST_search, workouts.GET_workout.
  rewrite request_valid by done.
  by rewrite get_workout_in_bounds.
Qed.

(** C7, for a slug the route can carry.  On inputs inside the envelope
    bounds whose slug is one path segment (not empty, free of ["/"]), and
    whatever the lookup service does, [POST /workouts/search] and a [GET]
    of the path made of the same inputs give the same response (status
    code and body, hence success flag, message and data), after the same
    calls. *)
Theorem search_agrees_with_path St (h : Handler workouts.Svc St) (s : St)
    (year month day : Z) (url_slug : string) :
  2000 <= year <= 9999 -> 1 <= month <= 12 -> 1 <= day <= 31 ->
  workouts.path_param url_slug = true ->
  run h (workouts.POST_search
           {| WorkoutRequest.year := year; WorkoutRequest.month := month;
              WorkoutRequest.day := day; WorkoutRequest.url_slug := url_slug |}) s
  = run h (workouts.GET_route year month day url_slug) s.
Proof.
  intros Hy Hm Hd Hslug. unfold workouts.GET_route. rewrite Hslug.
  by apply POST_search_as_GET_workout.
Qed.

Lemma search_agrees_with_path_witness :
  run (mocks.mock_service (inr (Some mocks.test_workout)) (inr true))
    (workouts.POST_search
       {| WorkoutRequest.year := 2024; WorkoutRequest.month := 1;
          WorkoutRequest.day := 15; WorkoutRequest.url_slug := "test-workout" |}) tt
  = run (mocks.mock_service (inr (Some mocks.test_workout)) (inr true))
      (workouts.GET_route 2024 1 15 "test-workout") tt.
Proof.
  apply (search_agrees_with_path unit
           (mocks.mock_service (inr (Some mocks.test_workout)) (inr true)) tt
           2024 1 15 "test-workout"); (lia || reflexivity).
Defined.

(** C7 does not hold for every slug the envelope accepts.  The envelope
    puts no constraint on [url_slug]: with the slug ["a/b"], and with the
    empty slug, [POST /workouts/search] calls the lookup service and
    answers 200 with the record, while the path made of the same inputs
    matches no route: the router answers 404 and the service is not
    called. *)
Lemma search_differs_on_unroutable_slug :
  let h := mocks.mock_service (inr (Some mocks.test_workout)) (inr true) in
  let request url_slug :=
    {| WorkoutRequest.year := 2024; WorkoutRequest.month := 1;
       WorkoutRequest.day := 15; WorkoutRequest.url_slug := url_slug |} in
  let found :=
    {| workouts.status_code := 200;
       workouts.body := workouts.json_envelope
         {| WorkoutResponse.success := true;
            WorkoutResponse.message := Some "Workout data retrieved successfully";
            WorkoutResponse.data := Some mocks.test_workout |} |} in
  let not_found :=
    {| workouts.status_code := 404;
       workouts.body := workouts.json_detail "Not Found" |} in
  Forall (fun url_slug =>
    let post := run h (workouts.POST_search (request url_slug)) tt in
    let get := run h (workouts.GET_route 2024 1 15 url_slug) tt in
    WorkoutRequest.valid (request url_slug) = true /\
    outcome post = found /\
    workouts.service_calls (trace post) =
      [workouts.svc_get_workout_by_date_and_slug
         (datetime.mkdate 2024 1 15) url_slug] /\
    outcome get = not_found /\
    trace get = [] /\
    outcome post <> outcome get) ["a/b"; ""].
Proof.
  cbn zeta. repeat constructor; by vm_compute.
Qed.

(** A day past the end of its month makes [date()] raise. *)
Lemma date_new_day_out_of_range (year month day : Z) :
  2000 <= year <= 9999 -> 1 <= month <= 12 -> 1 <= day <= 31 ->
  datetime.days_in_month year month < day ->
  datetime.new year month day = inl (ValueError "day is out of range for month").
Proof.
  intros Hy Hm Hd Hdim. unfold datetime.new.
  assert ((1 <=? year) && (year <=? 9999) = true) as ->
    by (apply between_true; lia).
  apply between_true in Hm. rewrite Hm. cbn [negb].
  assert ((1 <=? day) && (day <=? datetime.days_in_month year month) = false) as ->
    by (apply between_false; lia).
  reflexivity.
Qed.

(** [date()] raises nothing but [ValueError]. *)
Lemma date_new_raises_ValueError (year month day : Z) (e : PyExc) :
  datetime.new year month day = inl e -> is_ValueError e = true.
Proof. unfold datetime.new. repeat case_match; by intros [= <-]. Qed.

(** C8.  A triple inside the field bounds that is not a calendar date
    (its day lies past the end of its month) is answered 400 by both
    lookup endpoints, with a message that starts with "Invalid date", and
    neither endpoint calls the lookup service. *)
Theorem calendar_invalid_rejected St (h : Handler workouts.Svc St) (s : St)
    (year month day : Z) (url_slug : string) :
  2000 <= year <= 9999 -> 1 <= month <= 12 -> 1 <= day <= 31 ->
  datetime.days_in_month year month < day ->
  let r1 := run h (workouts.GET_workout year month day url_slug) s in
  let r2 := run h (workouts.POST_search
                     {| WorkoutRequest.year := year; WorkoutRequest.month := month;
                        WorkoutRequest.day := day;
                        WorkoutRequest.url_slug := url_slug |}) s in
  exists rest,
    outcome r1 = {| workouts.status_code := 400;
                    workouts.body := workouts.json_detail ("Invalid date" +:+ rest) |} /\
    outcome r2 = outcome r1 /\
    trace r1 = [] /\ trace r2 = [].
Proof.
  intros Hy Hm Hd Hdim r1 r2. subst r1 r2.
  unfold workouts.POST_search, workouts.GET_workout.
  rewrite request_valid, get_workout_in_bounds by done.
  unfold workouts.search_workout. cbn [WorkoutRequest.year WorkoutRequest.month
    WorkoutRequest.day WorkoutRequest.url_slug].
  rewrite date_new_day_out_of_range by done.
  exists ": day is out of range for month". by cbn.
Qed.

Lemma calendar_invalid_rejected_witness :
  let h := mocks.mock_service (inr (Some mocks.test_workout)) (inr true) in
  let r1 := run h (workouts.GET_workout 2024 2 30 "test-workout") tt in
  let r2 := run h (workouts.POST_search
                     {| WorkoutRequest.year := 2024; WorkoutRequest.month := 2;
                        WorkoutRequest.day := 30;
                        WorkoutRequest.url_slug := "test-workout" |}) tt in
  exists rest,
    outcome r1 = {| workouts.status_code := 400;
                    workouts.body := workouts.json_detail ("Invalid date" +:+ rest) |} /\
    outcome r2 = outcome r1 /\
    trace r1 = [] /\ trace r2 = [].
Proof.
  apply (calendar_invalid_rejected unit
           (mocks.mock_service (inr (Some mocks.test_workout)) (inr true)) tt
           2024 2 30 "test-workout"); try lia.
  vm_compute. reflexivity.
Defined.

(** ** The health endpoint *)

(** C10.  A payload [GET /health] produces without an exception has
    [status] and [database] in agreement: both are set from the boolean
    the service's check returned; and the response is sent with status
    200, healthy or not. *)
Theorem health_payload_agrees St (h : Handler workouts.Svc St) (s : St)
    (payload : gmap string string) :
  outcome (run h workouts.health_check s) = inr payload ->
  (payload !! "status" = Some "healthy" <->
   payload !! "database" = Some "connected") /\
  (exists db_healthy : bool,
     (h workouts.svc_health_check s).1 = inr db_healthy /\
     payload = workouts.health_payload db_healthy /\
     payload !! "status" = Some (if db_healthy then "healthy" else "unhealthy") /\
     payload !! "database" =
       Some (if db_healthy then "connected" else "disconnected")) /\
  outcome (run h workouts.GET_health s) =
    {| workouts.status_code := 200; workouts.body := workouts.json_dict payload |}.
Proof.
  unfold workouts.GET_health. rewrite run_bind.
  unfold workouts.health_check, try_except, py_bind, call. cbn.
  destruct (h workouts.svc_health_check s) as [[e|b] s1]; cbn; [done|].
  intros [= <-]. split; [|split; [|done]].
  - by destruct b.
  - exists b. by destruct b.
Qed.

Lemma health_payload_agrees_witness :
  (workouts.health_payload true !! "status" = Some "healthy" <->
   workouts.health_payload true !! "database" = Some "connected") /\
  (exists db_healthy : bool,
     (mocks.mock_service (inr None) (inr true) workouts.svc_health_check tt).1
       = inr db_healthy /\
     workouts.health_payload true = workouts.health_payload db_healthy /\
     workouts.health_payload true !! "status"
       = Some (if db_healthy then "healthy" else "unhealthy") /\
     workouts.health_payload true !! "database"
       = Some (if db_healthy then "connected" else "disconnected")) /\
  outcome (run (mocks.mock_service (inr None) (inr true)) workouts.GET_health tt) =
    {| workouts.status_code := 200;
       workouts.body := workouts.json_dict (workouts.health_payload true) |}.
Proof.
  apply (health_payload_agrees unit
           (mocks.mock_service (inr None) (inr true)) tt
           (workouts.health_payload true)).
  reflexivity.
Defined.

(** The 503 of the endpoint needs the service method itself to raise. *)
Lemma health_check_raises_503 St (h : Handler workouts.Svc St) (s s1 : St)
    (e : PyExc) :
  h workouts.svc_health_check s = (inl e, s1) ->
  outcome (run h workouts.GET_health s) =
    {| workouts.status_code := 503;
       workouts.body := workouts.json_detail "Service unavailable" |}.
Proof.
  intros He. unfold workouts.GET_health. rewrite run_bind.
  unfold workouts.health_check, workouts.log, try_except, py_bind, call. cbn.
  by rewrite He.
Qed.

Lemma status_is_1_true (result : option Row) :
  workout_service.status_is_1 result = true <->
  exists row, result = Some row /\ row !! "status" = Some (VInt 1).
Proof.
  destruct result as [row|]; cbn.
  - rewrite bool_decide_eq_true. unfold get. split.
    + intros Hget. exists row. split; [done|].
      destruct (row !! "status") as [v|]; cbn in Hget; by subst.
    + intros (row' & [= <-] & ->). done.
  - split; [done|]. by intros (? & ? & _).
Qed.

(** C5.  The service's [health_check] never raises, and it returns
    [True] exactly when the round-trip query, run through
    [execute_single], yielded a row whose [status] is the integer 1; an
    error, no row, or another value all give [False]. *)
Theorem check_health_spec St (h : Handler workout_service.Db St) (s : St) :
  let answer :=
    (h (workout_service.db_execute_single "SELECT 1 as status" None) s).1 in
  exists b : bool,
    outcome (run h workout_service.health_check s) = inr b /\
    (b = true <->
     exists row, answer = inr (Some row) /\ row !! "status" = Some (VInt 1)).
Proof.
  unfold workout_service.health_check, try_except, py_bind,
    workout_service.execute_single, workout_service.log, call.
  cbn -[workout_service.status_is_1].
  destruct (h (workout_service.db_execute_single "SELECT 1 as status" None) s)
    as [[e|result] s1]; cbn -[workout_service.status_is_1].
  - exists false. split; [done|]. split; [done|]. by intros (? & ? & _).
  - exists (workout_service.status_is_1 result). split; [done|].
    rewrite status_is_1_true. split.
    + intros (row & -> & Hrow). eauto.
    + intros (row & [= ->] & Hrow). eauto.
Qed.

(** ** The lookup service: the aggregate record *)

Section Aggregate.
Context `{Pydantic}.

Lemma workout_of_row_fields (row : Row) (qic : QICModel.t)
    (pax_list : list PAXModel.t) (aos_list : list AOSModel.t) (w : WorkoutModel.t) :
  workout_service.workout_of_row row qic pax_list aos_list = inr w ->
  WorkoutModel.qic w = qic /\ WorkoutModel.pax w = pax_list /\
  WorkoutModel.aos w = aos_list.
Proof.
  unfold workout_service.workout_of_row, WorkoutModel.new, res_bind.
  repeat case_match; try discriminate. by intros [= <-].
Qed.

(** The service's run once the three queries have answered. *)
Lemma get_workout_by_date_and_slug_found St (h : Handler workout_service.Db St)
    (s s1 s2 s3 : St) (workout_date : datetime.date) (url_slug : string)
    (workout_data : Row) (pax_data aos_data : list Row) :
  h (workout_service.db_execute_single workout_service.workout_query
       (Some (workout_service.query_params workout_date url_slug))) s
    = (inr (Some workout_data), s1) ->
  workout_data <> ∅ ->
  h (workout_service.db_execute_query workout_service.pax_query
       (Some (workout_service.query_params workout_date url_slug))) s1
    = (inr pax_data, s2) ->
  h (workout_service.db_execute_query workout_service.aos_query
       (Some (workout_service.query_params workout_date url_slug))) s2
    = (inr aos_data, s3) ->
  forall pax_list aos_list qic w,
    res_mapM workout_service.pax_of_row pax_data = inr pax_list ->
    res_mapM workout_service.aos_of_row aos_data = inr aos_list ->
    workout_service.qic_of_row workout_data = inr qic ->
    workout_service.workout_of_row workout_data qic pax_list aos_list = inr w ->
    outcome (run h (workout_service.get_workout_by_date_and_slug
                      workout_date url_slug) s) = inr (Some w).
Proof.
  intros Hhdr Hne Hpax Haos pax_list aos_list qic w Hpl Hal Hq Hw.
  unfold_service.
  run_cbn.
  rewrite Hhdr. run_cbn.
  rewrite bool_decide_eq_false_2 by done.
  run_cbn.
  rewrite Hpax. run_cbn.
  rewrite Hpl. run_cbn.
  rewrite Haos. run_cbn.
  rewrite Hal. cbn. rewrite Hq. cbn. rewrite Hw. done.
Qed.

(** C6.  Whatever rows the participant query and the activity-segment
    query return, the [pax] and [aos] of the aggregate record are those
    rows mapped one by one, in the same order, by the model constructors;
    in particular empty results give empty lists. *)
Theorem aggregate_sequences St (h : Handler workout_service.Db St)
    (s s1 s2 s3 : St) (workout_date : datetime.date) (url_slug : string)
    (workout_data : Row) (pax_data aos_data : list Row) (w : WorkoutModel.t) :
  h (workout_service.db_execute_single workout_service.workout_query
       (Some (workout_service.query_params workout_date url_slug))) s
    = (inr (Some workout_data), s1) ->
  h (workout_service.db_execute_query workout_service.pax_query
       (Some (workout_service.query_params workout_date url_slug))) s1
    = (inr pax_data, s2) ->
  h (workout_service.db_execute_query workout_service.aos_query
       (Some (workout_service.query_params workout_date url_slug))) s2
    = (inr aos_data, s3) ->
  outcome (run h (workout_service.get_workout_by_date_and_slug
                    workout_date url_slug) s) = inr (Some w) ->
  Forall2 (fun row p => workout_service.pax_of_row row = inr p)
          pax_data (WorkoutModel.pax w) /\
  Forall2 (fun row a => workout_service.aos_of_row row = inr a)
          aos_data (WorkoutModel.aos w) /\
  length (WorkoutModel.pax w) = length pax_data /\
  length (WorkoutModel.aos w) = length aos_data /\
  (pax_data = [] -> WorkoutModel.pax w = []) /\
  (aos_data = [] -> WorkoutModel.aos w = []).
Proof.
  intros Hhdr Hpax Haos.
  unfold_service.
  run_cbn.
  rewrite Hhdr. run_cbn.
  case_bool_decide; [done|].
  run_cbn.
  rewrite Hpax. run_cbn.
  destruct (res_mapM workout_service.pax_of_row pax_data) as [e|pax_list] eqn:Hpl;
    run_cbn; [done|].
  rewrite Haos. run_cbn.
  destruct (res_mapM workout_service.aos_of_row aos_data) as [e|aos_list] eqn:Hal;
    cbn; [done|].
  destruct (workout_service.qic_of_row workout_data) as [e|qic]; cbn; [done|].
  destruct (workout_service.workout_of_row workout_data qic pax_list aos_list)
    as [e|w'] eqn:Hw; cbn; [done|].
  intros [= <-]. apply workout_of_row_fields in Hw as (_ & -> & ->).
  apply res_mapM_Forall2 in Hpl, Hal.
  pose proof (Forall2_length _ _ _ Hpl) as Hlp.
  pose proof (Forall2_length _ _ _ Hal) as Hla.
  repeat split; try done.
  - intros ->. by inversion Hpl.
  - intros ->. by inversion Hal.
Qed.

End Aggregate.

Lemma aggregate_sequences_witness :
  Forall2 (fun row p => workout_service.pax_of_row (H := mocks.strict) row = inr p)
          mocks.pax_data (WorkoutModel.pax mocks.test_workout) /\
  Forall2 (fun row a => workout_service.aos_of_row (H := mocks.strict) row = inr a)
          mocks.aos_data (WorkoutModel.aos mocks.test_workout) /\
  length (WorkoutModel.pax mocks.test_workout) = length mocks.pax_data /\
  length (WorkoutModel.aos mocks.test_workout) = length mocks.aos_data /\
  (mocks.pax_data = [] -> WorkoutModel.pax mocks.test_workout = []) /\
  (mocks.aos_data = [] -> WorkoutModel.aos mocks.test_workout = []).
Proof.
  apply (aggregate_sequences (H := mocks.strict) unit
           (mocks.mock_db (inr (Some mocks.workout_data))
              (inr mocks.pax_data) (inr mocks.aos_data))
           tt tt tt tt (datetime.mkdate 2024 1 15) "test-workout"
           mocks.workout_data).
  - reflexivity.
  - reflexivity.
  - reflexivity.
  - vm_compute. reflexivity.
Defined.

(** ** Storage errors, end to end *)

Lemma gateway_errors_app tr1 tr2 :
  app.gateway_errors (tr1 ++ tr2) = app.gateway_errors tr1 ++ app.gateway_errors tr2.
Proof. apply omap_app. Qed.

Lemma logged_app tr1 tr2 :
  app.logged (tr1 ++ tr2) = app.logged tr1 ++ app.logged tr2.
Proof. apply omap_app. Qed.

(** The service stops at the first error of the gateway, logs it and
    raises it again. *)
Lemma get_workout_by_date_and_slug_error `{Pydantic} St
    (h : Handler workout_service.Db St) (s : St)
    (workout_date : datetime.date) (url_slug : string) :
  let r := run h (workout_service.get_workout_by_date_and_slug workout_date url_slug) s in
  app.gateway_errors (trace r) = [] \/
  exists e, app.gateway_errors (trace r) = [e] /\ outcome r = inl e /\
            app.logged (trace r) =
              [(ERROR, "Error retrieving workout data: " +:+ str_exc e)].
Proof.
  unfold_service.
  run_cbn.
  answer h. destruct ans as [e|workout_data]; run_cbn; [right; eauto|].
  destruct (workout_service.falsy workout_data); run_cbn; [by left|].
  answer h. destruct ans as [e|pax_data]; run_cbn; [right; eauto|].
  destruct (res_mapM _ pax_data); run_cbn; [by left|].
  answer h. destruct ans as [e|aos_data]; run_cbn; [right; eauto|].
  destruct (res_mapM _ aos_data); run_cbn; [by left|].
  destruct (workout_service.qic_of_row _); run_cbn; [by left|].
  destruct (workout_service.workout_of_row _ _ _ _); run_cbn; by left.
Qed.

(** The body handler, served: an error of the gateway comes out as the
    generic 500, logged by the service and by the endpoint. *)
Lemma search_workout_storage_error `{Pydantic} St
    (h : Handler workout_service.Db St) (s : St)
    (request : WorkoutRequest.t) (cause : PyExc) :
  let r := run h (app.serve
                    (bind (workouts.search_workout request) (fun x =>
                     Ret (workouts.respond workouts.json_envelope x)))) s in
  cause ∈ app.gateway_errors (trace r) ->
  outcome r = {| workouts.status_code := 500;
                 workouts.body := workouts.json_detail "Internal server error" |} /\
  (ERROR, "Error retrieving workout data: " +:+ str_exc cause) ∈ app.logged (trace r) /\
  (ERROR, "Error retrieving workout: " +:+ str_exc cause) ∈ app.logged (trace r).
Proof.
  intros r. subst r.
  unfold app.serve, workouts.search_workout,
    try_except_ValueError, try_except, py_bind, py_lift, call.
  destruct (datetime.new _ _ _) as [e|d]; run_cbn.
  { destruct (is_ValueError e); run_cbn; by intros ?%elem_of_nil. }
  rewrite run_bind. run_cbn.
  rewrite gateway_errors_app, logged_app.
  destruct (get_workout_by_date_and_slug_error St h s d
              (WorkoutRequest.url_slug request))
    as [Hnone|(e & He & Hout & Hlog)].
  - rewrite Hnone.
    destruct (outcome (run h (workout_service.get_workout_by_date_and_slug _ _) s))
      as [e|[w|]]; run_cbn; by intros ?%elem_of_nil.
  - rewrite He, Hout, Hlog. run_cbn.
    intros ->%list_elem_of_singleton. cbn. set_solver.
Qed.

(** C4, for the code as written.  When the gateway raises during a request,
    a lookup endpoint answers 500 "Internal server error", while the
    health endpoint answers 200 with the unhealthy payload, the service's
    check having turned the error into [False]; in both cases the cause
    is logged at ERROR level and the body sent is a fixed text. *)
Theorem storage_error_responses `{Pydantic} St (h : Handler workout_service.Db St)
    (s : St) (req : workouts.Request) (cause : PyExc) :
  let r := run h (app.serve (workouts.route req)) s in
  cause ∈ app.gateway_errors (trace r) ->
  match req with
  | workouts.health =>
      outcome r =
        {| workouts.status_code := 200;
           workouts.body := workouts.json_dict (workouts.health_payload false) |} /\
      (ERROR, "Health check failed: " +:+ str_exc cause) ∈ app.logged (trace r)
  | workouts.lookup _ =>
      outcome r =
        {| workouts.status_code := 500;
           workouts.body := workouts.json_detail "Internal server error" |} /\
      (ERROR, "Error retrieving workout data: " +:+ str_exc cause)
        ∈ app.logged (trace r) /\
      (ERROR, "Error retrieving workout: " +:+ str_exc cause)
        ∈ app.logged (trace r)
  end.
Proof.
  intros r. subst r. destruct req as [|[year month day url_slug|request]].
  - unfold app.serve, workouts.route, workouts.GET_health, workouts.health_check,
      workout_service.health_check, try_except, py_bind, call.
    run_cbn.
    unfold workout_service.health_check, workout_service.execute_single,
      workout_service.log, try_except, py_bind, call.
    run_cbn. answer h. destruct ans as [e|result]; run_cbn.
    + intros ->%list_elem_of_singleton. cbn. set_solver.
    + by intros ?%elem_of_nil.
  - unfold workouts.route, workouts.GET_workout.
    destruct (decide (2000 <= year <= 9999 /\ 1 <= month <= 12 /\ 1 <= day <= 31))
      as [(Hy & Hm & Hd)|Hout].
    + rewrite get_workout_in_bounds by done.
      apply search_workout_storage_error.
    + destruct (get_workout_out_of_bounds year month day url_slug Hout)
        as (detail & -> & _).
      run_cbn. by intros ?%elem_of_nil.
  - unfold workouts.route, workouts.POST_search.
    destruct (WorkoutRequest.valid request).
    + apply search_workout_storage_error.
    + run_cbn. by intros ?%elem_of_nil.
Qed.

Lemma storage_error_responses_witness :
  let r := run mocks.db_down
             (app.serve (H := mocks.strict)
                (workouts.route (workouts.lookup
                   (workouts.by_path 2024 1 15 "test-workout")))) tt in
  outcome r =
    {| workouts.status_code := 500;
       workouts.body := workouts.json_detail "Internal server error" |} /\
  (ERROR, "Error retrieving workout data: (2003, 'Can not connect to MySQL server')")
    ∈ app.logged (trace r) /\
  (ERROR, "Error retrieving workout: (2003, 'Can not connect to MySQL server')")
    ∈ app.logged (trace r).
Proof.
  apply (storage_error_responses (H := mocks.strict) unit mocks.db_down tt
           (workouts.lookup (workouts.by_path 2024 1 15 "test-workout"))
           (Exception_ "(2003, 'Can not connect to MySQL server')")).
  vm_compute. apply list_elem_of_here.
Defined.

(** C4, with 503 for the health endpoint, does not hold: with the
    database unreachable the gateway raises, and [GET /health] answers
    200, not 503 "Service unavailable". *)
Lemma health_storage_error_not_503 :
  let r := run mocks.db_down
             (app.serve (H := mocks.strict) (workouts.route workouts.health)) tt in
  app.gateway_errors (trace r)
    = [Exception_ "(2003, 'Can not connect to MySQL server')"] /\
  workouts.status_code (outcome r) = 200 /\
  outcome r <> {| workouts.status_code := 503;
                  workouts.body := workouts.json_detail "Service unavailable" |}.
Proof. vm_compute. repeat split. discriminate. Qed.

(** ** The gateway: one connection per operation *)

Section Gateway.
Import database.
Context {St : Type} (h : Handler Pymysql St).

Lemma disconnect_clears (s : St) (self : DatabaseConnection) :
  (outcome (run h (disconnect self) s)).1 = inr tt /\
  (outcome (run h (disconnect self) s)).2
    = {| config := config self; _connection := None |}.
Proof.
  destruct self as [cfg [c|]]; cbn; [|done].
  destruct (h (connection_close c) s) as [[] s1]; cbn.
  by destruct (h (logger INFO "Database connection closed") s1) as [[] s2].
Qed.

(** Whatever the guarded block does, [finally: self.disconnect()] leaves
    no stored connection. *)
Lemma try_finally_disconnect_clears {A} (p : Method A) (s : St)
    (self : DatabaseConnection) :
  _connection (outcome (run h (m_try_finally p disconnect self) s)).2 = None.
Proof.
  unfold m_try_finally. rewrite !run_bind. cbn [outcome].
  match goal with
  | |- context [run h (disconnect ?x) ?y] =>
      destruct (disconnect_clears y x) as [Hr Hs];
      destruct (outcome (run h (disconnect x) y)) as [[e|[]] self']
  end; cbn in *; by subst.
Qed.

(** So does the context manager, for any block under [with]. *)
Lemma get_connection_clears {A} (body : Connection -> Method A) (s : St)
    (self : DatabaseConnection) :
  _connection (outcome (run h (get_connection body self) s)).2 = None.
Proof. apply try_finally_disconnect_clears. Qed.

Ltac gateway_step :=
  match goal with
  | |- context [h ?o ?s] =>
      let E := fresh "E" in
      destruct (h o s) as [? ?] eqn:E; cbn [fst snd] in *
  | |- context [match ?x with inl _ => _ | inr _ => _ end] => destruct x
  end; cbn.

Lemma execute_query_releases (s : St) (self : DatabaseConnection)
    (query : string) (params : option Row) :
  releases self (run h (execute_query query params self) s).
Proof.
  split; [apply get_connection_clears|].
  unfold execute_query, get_connection, with_cursor, connect, disconnect,
    get_connection_except, log, perform, m_try_finally, m_try_except, m_bind,
    m_self, m_ret, m_raise, set__connection.
  destruct self as [cfg c0]. cbn.
  repeat gateway_step.
  all: try destruct c0; cbn.
  all: repeat split; try done.
  all: try set_solver.
  all: by intros [= <-].
Qed.

(** [execute_single] is [execute_query] followed by a look at the rows. *)
Lemma run_execute_single (s : St) (self : DatabaseConnection)
    (query : string) (params : option Row) :
  let rq := run h (execute_query query params self) s in
  let rs := run h (execute_single query params self) s in
  trace rs = trace rq /\ final rs = final rq /\
  (outcome rs).2 = (outcome rq).2 /\
  (outcome rs).1 = match (outcome rq).1 with
                   | inl e => inl e
                   | inr results => inr (head results)
                   end.
Proof.
  cbn zeta. unfold execute_single, m_bind, m_ret. rewrite run_bind.
  destruct (outcome (run h (execute_query query params self) s)) as [[e|rows] self'];
    cbn -[execute_query]; by rewrite app_nil_r.
Qed.


End Gateway.

(** The gateway against a reachable and an unreachable server. *)
Example execute_query_up :
  let r := run (mocks.pymysql_up mocks.pax_data)
             (database.execute_query workout_service.pax_query None
                (database.init database.from_env)) 0%nat in
  outcome r = (inr mocks.pax_data, database.init database.from_env) /\
  database.pymysql_calls (trace r) =
    [database.pymysql_connect database.from_env;
     database.connection_cursor 0%nat;
     database.cursor_execute 1%nat workout_service.pax_query ∅;
     database.cursor_fetchall 1%nat;
     database.cursor_close 1%nat;
     database.connection_close 0%nat].
Proof. vm_compute. done. Qed.

Example execute_single_down :
  let r := run mocks.pymysql_down
             (database.execute_single "SELECT 1 as status" None
                (database.init database.from_env)) 0%nat in
  outcome r = (inl (Exception_ "(2003, 'Can not connect to MySQL server')"),
               database.init database.from_env) /\
  database.pymysql_calls (trace r) = [database.pymysql_connect database.from_env].
Proof. vm_compute. done. Qed.

(** ** The repository's unit tests, replayed on the model *)

(** [test_get_workout_by_date_and_slug_success] *)
Example test_get_workout_by_date_and_slug_success :
  outcome (run (mocks.mock_db (inr (Some mocks.workout_data))
                  (inr mocks.pax_data) (inr mocks.aos_data))
             (workout_service.get_workout_by_date_and_slug (H := mocks.strict)
                (datetime.mkdate 2024 1 15) "test-workout") tt)
  = inr (Some mocks.test_workout).
Proof. vm_compute. reflexivity. Qed.

(** [test_get_workout_by_date_and_slug_database_error] *)
Example test_get_workout_by_date_and_slug_database_error :
  outcome (run (mocks.mock_db (inl (Exception_ "Database connection failed"))
                  (inr []) (inr []))
             (workout_service.get_workout_by_date_and_slug (H := mocks.strict)
                (datetime.mkdate 2024 1 15) "test-workout") tt)
  = inl (Exception_ "Database connection failed").
Proof. vm_compute. reflexivity. Qed.

(** [test_health_check_success], [test_health_check_failure],
    [test_health_check_invalid_response], [test_health_check_no_response] *)
Example test_health_check :
  outcome (run (mocks.mock_db (inr (Some {[ "status" := VInt 1 ]})) (inr []) (inr []))
             workout_service.health_check tt) = inr true /\
  outcome (run (mocks.mock_db (inl (Exception_ "Connection failed")) (inr []) (inr []))
             workout_service.health_check tt) = inr false /\
  outcome (run (mocks.mock_db (inr (Some {[ "status" := VInt 0 ]})) (inr []) (inr []))
             workout_service.health_check tt) = inr false /\
  outcome (run (mocks.mock_db (inr None) (inr []) (inr []))
             workout_service.health_check tt) = inr false.
Proof. vm_compute. done. Qed.

(** [test_get_workout_success], [test_get_workout_not_found],
    [test_get_workout_server_error] *)
Example test_get_workout :
  outcome (run (mocks.mock_service (inr (Some mocks.test_workout)) (inr true))
             (workouts.GET_workout 2024 1 15 "test-workout") tt)
  = {| workouts.status_code := 200;
       workouts.body := workouts.json_envelope
         {| WorkoutResponse.success := true;
            WorkoutResponse.message := Some "Workout data retrieved successfully";
            WorkoutResponse.data := Some mocks.test_workout |} |} /\
  outcome (run (mocks.mock_service (inr None) (inr true))
             (workouts.GET_workout 2024 1 15 "nonexistent-workout") tt)
  = {| workouts.status_code := 200;
       workouts.body := workouts.json_envelope
         {| WorkoutResponse.success := false;
            WorkoutResponse.message :=
              Some "No workout found for 2024-01-15 with slug 'nonexistent-workout'";
            WorkoutResponse.data := None |} |} /\
  outcome (run (mocks.mock_service (inl (Exception_ "Database connection failed"))
                  (inr true))
             (workouts.GET_workout 2024 1 15 "test-workout") tt)
  = {| workouts.status_code := 500;
       workouts.body := workouts.json_detail "Internal server error" |}.
Proof. vm_compute. done. Qed.

(** [test_get_workout_invalid_year], [test_get_workout_invalid_month],
    [test_get_workout_invalid_day], [test_get_workout_invalid_date] *)
Example test_get_workout_invalid :
  let h := mocks.mock_service (inr None) (inr true) in
  outcome (run h (workouts.GET_workout 1999 1 15 "test-workout") tt)
  = {| workouts.status_code := 400;
       workouts.body := workouts.json_detail "Year must be between 2000 and 9999" |} /\
  outcome (run h (workouts.GET_workout 2024 13 15 "test-workout") tt)
  = {| workouts.status_code := 400;
       workouts.body := workouts.json_detail "Month must be between 1 and 12" |} /\
  outcome (run h (workouts.GET_workout 2024 1 32 "test-workout") tt)
  = {| workouts.status_code := 400;
       workouts.body := workouts.json_detail "Day must be between 1 and 31" |} /\
  outcome (run h (workouts.GET_workout 2024 2 30 "test-workout") tt)
  = {| workouts.status_code := 400;
       workouts.body :=
         workouts.json_detail "Invalid date: day is out of range for month" |}.
Proof. vm_compute. done. Qed.

(** [test_search_workout_invalid_request], [test_search_workout_invalid_date] *)
Example test_search_workout_invalid :
  let h := mocks.mock_service (inr None) (inr true) in
  workouts.status_code
    (outcome (run h (workouts.POST_search
                       {| WorkoutRequest.year := 1999; WorkoutRequest.month := 1;
                          WorkoutRequest.day := 15;
                          WorkoutRequest.url_slug := "test-workout" |}) tt)) = 422 /\
  outcome (run h (workouts.POST_search
                    {| WorkoutRequest.year := 2024; WorkoutRequest.month := 2;
                       WorkoutRequest.day := 30;
                       WorkoutRequest.url_slug := "test-workout" |}) tt)
  = {| workouts.status_code := 400;
       workouts.body :=
         workouts.json_detail "Invalid date: day is out of range for month" |}.
Proof. vm_compute. done. Qed.

(** [test_health_check_healthy], [test_health_check_unhealthy],
    [test_health_check_exception] *)
Example test_health_endpoint :
  outcome (run (mocks.mock_service (inr None) (inr true)) workouts.GET_health tt)
  = {| workouts.status_code := 200;
       workouts.body := workouts.json_dict (workouts.health_payload true) |} /\
  outcome (run (mocks.mock_service (inr None) (inr false)) workouts.GET_health tt)
  = {| workouts.status_code := 200;
       workouts.body := workouts.json_dict (workouts.health_payload false) |} /\
  outcome (run (mocks.mock_service (inr None) (inl (Exception_ "Database error")))
             workouts.GET_health tt)
  = {| workouts.status_code := 503;
       workouts.body := workouts.json_detail "Service unavailable" |}.
Proof. vm_compute. done. Qed.

(** ** The gateway, call by call *)

Section GatewayCalls.
Import database.
Context {St : Type} (h : Handler Pymysql St).

(** Case analysis on the answers of pymysql, one call after the other. *)
Ltac gateway_case :=
  match goal with
  | |- context [h ?o ?s] =>
      let E := fresh "E" in
      destruct (h o s) as [? ?] eqn:E; cbn [fst snd] in *
  | |- context [match ?x with inl _ => _ | inr _ => _ end] => destruct x
  | |- context [error_of ?x] => destruct x
  end; cbn.

Ltac unfold_gateway :=
  unfold execute_single, execute_query, get_connection, with_cursor, connect,
    disconnect, get_connection_except, log, perform, m_try_finally,
    m_try_except, m_bind, m_self, m_ret, m_raise, set__connection.

Lemma same_refl {A} `{EqDecision A} (x : A) : same x (Some x) = true.
Proof. by apply bool_decide_eq_true. Qed.

(** X1.  When [execute_query] returns rows, it has made six calls into
    pymysql, in this order: connect, cursor, execute with the statement
    given and the parameters given (the empty dict for [None]), fetchall,
    the close of the cursor and the close of the connection.  The rows
    are those [fetchall] returned, pymysql raised nothing, and no
    connection stays stored. *)
Theorem execute_query_returns (s : St) (self : DatabaseConnection)
    (query : string) (params : option Row) (rows : list Row) :
  let r := run h (execute_query query params self) s in
  (outcome r).1 = inr rows ->
  exists c cur,
    pymysql_calls (trace r) =
      [pymysql_connect (config self); connection_cursor c;
       cursor_execute cur query (default ∅ params); cursor_fetchall cur;
       cursor_close cur; connection_close c] /\
    fetched (trace r) = [rows] /\
    pymysql_errors (trace r) = [] /\
    (outcome r).2 = {| config := config self; _connection := None |}.
Proof.
  cbn zeta. unfold_gateway. destruct self as [cfg [c0|]]; cbn.
  all: repeat gateway_case.
  all: intros [= Hrows]; subst; eauto 10.
Qed.

(** X2.  [execute_query] raises exactly when a call into pymysql raised,
    and the exception that reaches the caller is the last one pymysql
    raised: an error of the close of the cursor or of the rollback
    replaces the error that caused it. *)
Theorem execute_query_raises_last_error (s : St) (self : DatabaseConnection)
    (query : string) (params : option Row) :
  let r := run h (execute_query query params self) s in
  match last (pymysql_errors (trace r)) with
  | Some e => (outcome r).1 = inl e
  | None => exists rows, (outcome r).1 = inr rows
  end.
Proof.
  cbn zeta. unfold_gateway. destruct self as [cfg [c0|]]; cbn.
  all: repeat gateway_case; try done; eauto.
Qed.

(** X3.  [execute_query] rolls back once, on the connection it acquired,
    when it raises after having connected; it does not roll back when it
    returns, nor when [connect] itself failed. *)
Theorem rollback_only_after_failure (s : St) (self : DatabaseConnection)
    (query : string) (params : option Row) :
  let r := run h (execute_query query params self) s in
  rollbacks (trace r) =
    match (outcome r).1, opened (trace r) with
    | inl _, c :: _ => [c]
    | _, _ => []
    end.
Proof.
  cbn zeta. unfold_gateway. destruct self as [cfg [c0|]]; cbn.
  all: repeat gateway_case; try done; eauto.
Qed.

(** One operation of the gateway, started without a stored connection,
    keeps to the discipline of [protocol]. *)
Lemma execute_query_follows_protocol (s : St) (self : DatabaseConnection)
    (query : string) (params : option Row) :
  _connection self = None ->
  protocol (None, None) (trace (run h (execute_query query params self) s))
    = Some (None, None).
Proof.
  destruct self as [cfg c0]. cbn. intros ->.
  unfold_gateway. cbn.
  repeat gateway_case; repeat (rewrite same_refl; cbn); done.
Qed.

(** X4.  [connect] calls [pymysql.connect] once and closes nothing.  When
    pymysql returns a connection, [connect] returns it and stores it,
    replacing a connection stored before without closing it; when pymysql
    raises, [connect] raises and the object is left as it was. *)
Theorem connect_stores_or_keeps (s : St) (self : DatabaseConnection) :
  let r := run h (connect self) s in
  closed (trace r) = [] /\
  connect_calls (trace r) = 1%nat /\
  match opened (trace r) with
  | [] => exists e, outcome r = (inl e, self)
  | c :: _ =>
      outcome r = (inr c, {| config := config self; _connection := Some c |})
  end.
Proof.
  cbn zeta. unfold_gateway. destruct self as [cfg c0]. cbn.
  repeat gateway_case; eauto.
Qed.

(** X6.  [execute_single] makes the calls of [execute_query] and no other;
    it raises what [execute_query] raises, returns [None] when
    [execute_query] returns no row and the first row otherwise. *)
Theorem execute_single_first_row (s : St) (self : DatabaseConnection)
    (query : string) (params : option Row) :
  let rq := run h (execute_query query params self) s in
  let rs := run h (execute_single query params self) s in
  trace rs = trace rq /\ final rs = final rq /\
  (outcome rs).2 = (outcome rq).2 /\
  (forall e, (outcome rq).1 = inl e -> (outcome rs).1 = inl e) /\
  ((outcome rq).1 = inr [] -> (outcome rs).1 = inr None) /\
  (forall row rows, (outcome rq).1 = inr (row :: rows) ->
     (outcome rs).1 = inr (Some row)).
Proof.
  destruct (run_execute_single h s self query params) as (Htr & Hfin & Hself & Hout).
  cbn zeta. rewrite Hout. repeat split; try done.
  all: by intros; simplify_eq/=; repeat case_match; simplify_eq.
Qed.

Lemma protocol_app (st : Open) (tr1 tr2 : list (Event Pymysql)) :
  protocol st (tr1 ++ tr2) =
  match protocol st tr1 with
  | Some st' => protocol st' tr2
  | None => None
  end.
Proof.
  revert st. induction tr1 as [|ev tr1 IH]; intros st; cbn; [done|].
  by destruct (protocol_step st ev).
Qed.

Lemma gateway_call_follows_protocol (s : St) (db : DatabaseConnection)
    (query : string) (params : option Row) :
  _connection db = None ->
  (protocol (None, None) (trace (run h (execute_query query params db) s))
     = Some (None, None) /\
   _connection (outcome (run h (execute_query query params db) s)).2 = None) /\
  (protocol (None, None) (trace (run h (execute_single query params db) s))
     = Some (None, None) /\
   _connection (outcome (run h (execute_single query params db) s)).2 = None).
Proof.
  intros Hdb.
  destruct (run_execute_single h s db query params) as (Htr & _ & Hself & _).
  rewrite Htr, Hself.
  by split; (split; [apply execute_query_follows_protocol|apply get_connection_clears]).
Qed.

(** One call of the service on its gateway. *)
Lemma WorkoutService_follows_protocol (o : workout_service.DbOp) (s : St)
    (db : DatabaseConnection) :
  _connection db = None ->
  let r := run h (stack.WorkoutService o db) s in
  protocol (None, None) (trace r) = Some (None, None) /\
  _connection (outcome r).2 = None.
Proof.
  intros Hdb. destruct o as [query params|query params|lvl msg].
  - exact (proj2 (gateway_call_follows_protocol s db query params Hdb)).
  - exact (proj1 (gateway_call_follows_protocol s db query params Hdb)).
  - done.
Qed.

(** X7.  Whatever the service layer does with its gateway, started
    without a stored connection, pymysql is used in a disciplined way:
    one connection at a time, a cursor only on the open connection, every
    statement on the open cursor, the cursor closed before the rollback
    and before the close of the connection; at the end nothing is open
    and no connection is stored. *)
Theorem stack_follows_protocol {A} (p : Prog workout_service.Db A) (s : St)
    (db : DatabaseConnection) :
  _connection db = None ->
  let r := run h (stack.on_gateway p db) s in
  protocol (None, None) (trace r) = Some (None, None) /\
  _connection (outcome r).2 = None.
Proof.
  revert s db. induction p as [a|o k IH]; intros s db Hdb; [done|].
  cbn zeta. unfold stack.on_gateway. cbn [interp_state]. rewrite run_bind.
  cbn [trace outcome].
  destruct (WorkoutService_follows_protocol o s db Hdb) as [Hp Hdb'].
  match goal with
  | |- context [protocol (None, None) (trace ?r ++ _)] =>
      rewrite (protocol_app (None, None) (trace r));
      replace (protocol (None, None) (trace r)) with (Some (None, None : option Cursor) : option Open)
        by (symmetry; exact Hp)
  end.
  apply IH. exact Hdb'.
Qed.


Lemma connect_calls_app (tr1 tr2 : list (Event Pymysql)) :
  connect_calls (tr1 ++ tr2) = (connect_calls tr1 + connect_calls tr2)%nat.
Proof. unfold connect_calls. by rewrite omap_app, length_app. Qed.

Lemma gateway_call_connects_once (s : St) (db : DatabaseConnection)
    (query : string) (params : option Row) :
  connect_calls (trace (run h (execute_query query params db) s)) = 1%nat /\
  connect_calls (trace (run h (execute_single query params db) s)) = 1%nat.
Proof.
  destruct (run_execute_single h s db query params) as (Htr & _).
  rewrite Htr. split; apply execute_query_releases.
Qed.

Ltac gateway_call :=
  rewrite run_bind; cbn [outcome final trace];
  match goal with
  | |- context [@run ?I ?S ?A h (execute_single ?q ?p ?db) ?s] =>
      let r := fresh "r" in
      let Hr := fresh "Hr" in
      assert (connect_calls (trace (@run I S A h (execute_single q p db) s)) = 1%nat)
        as Hr by exact (proj2 (gateway_call_connects_once s db q p));
      set (r := @run I S A h (execute_single q p db) s) in *;
      clearbody r; destruct r as [[[?|?] ?] ? ?]
  | |- context [@run ?I ?S ?A h (execute_query ?q ?p ?db) ?s] =>
      let r := fresh "r" in
      let Hr := fresh "Hr" in
      assert (connect_calls (trace (@run I S A h (execute_query q p db) s)) = 1%nat)
        as Hr by exact (proj1 (gateway_call_connects_once s db q p));
      set (r := @run I S A h (execute_query q p db) s) in *;
      clearbody r; destruct r as [[[?|?] ?] ? ?]
  end;
  cbn [outcome final trace fst snd] in *.

Ltac stack_cbn :=
  cbn -[execute_single execute_query connect_calls
        workout_service.workout_query workout_service.pax_query
        workout_service.aos_query workout_service.query_params].

Ltac budget_done :=
  unfold connect_calls in *; rewrite ?omap_app, ?length_app; cbn;
  repeat split; [lia|by intros [[=]|[=]]|intros ? ?; simplify_eq/=; lia].

Lemma search_workout_connection_budget `{Pydantic} (s : St) (db : DatabaseConnection)
    (request : WorkoutRequest.t) :
  let r := run h (stack.on_gateway
                    (app.serve
                       (bind (workouts.search_workout request) (fun x =>
                        Ret (workouts.respond workouts.json_envelope x)))) db) s in
  let resp := (outcome r).1 in
  (connect_calls (trace r) <= 3)%nat /\
  (workouts.status_code resp = 400 \/ workouts.status_code resp = 422 ->
   trace r = []) /\
  (forall env, workouts.body resp = workouts.json_envelope env ->
     connect_calls (trace r) = if WorkoutResponse.success env then 3%nat else 1%nat).
Proof.
  cbn zeta. unfold stack.on_gateway, app.serve, workouts.search_workout,
    try_except_ValueError, try_except, py_bind, py_lift, call.
  destruct (datetime.new _ _ _) as [e|d] eqn:Hdate; stack_cbn.
  { destruct (is_ValueError e); [|destruct e]; cbn; repeat split; try lia; try done. }
  unfold_service. stack_cbn.
  gateway_call; stack_cbn; [budget_done|].
  match goal with o : option Row |- _ => destruct o as [row|] end;
    stack_cbn; [|budget_done].
  case_bool_decide; stack_cbn; [budget_done|].
  gateway_call; stack_cbn; [budget_done|].
  destruct (res_mapM workout_service.pax_of_row _); stack_cbn; [budget_done|].
  gateway_call; stack_cbn; [budget_done|].
  destruct (res_mapM workout_service.aos_of_row _); stack_cbn; [budget_done|].
  destruct (workout_service.qic_of_row _); stack_cbn; [budget_done|].
  destruct (workout_service.workout_of_row _ _ _ _); stack_cbn; budget_done.
Qed.

Lemma health_connects_once `{Pydantic} (s : St) :
  connect_calls (trace (run h (stack.request workouts.health) s)) = 1%nat.
Proof.
  unfold stack.request, stack.on_gateway, app.serve, workouts.route,
    workouts.GET_health, workouts.health_check, try_except, py_bind, call.
  stack_cbn. unfold_service. stack_cbn.
  gateway_call; stack_cbn.
  all: unfold connect_calls in *; rewrite ?omap_app, ?length_app; cbn; lia.
Qed.

(** X8.  Connections per request, end to end: the health endpoint opens
    one; a lookup opens at most three, none when it answers 400 or 422
    (it then calls nothing at all), one when it answers "not found" and
    three, one per query, when it answers with a record. *)
Theorem connection_budget `{Pydantic} (s : St) (req : workouts.Request) :
  let r := run h (stack.request req) s in
  let resp := (outcome r).1 in
  match req with
  | workouts.health => connect_calls (trace r) = 1%nat
  | workouts.lookup _ =>
      (connect_calls (trace r) <= 3)%nat /\
      (workouts.status_code resp = 400 \/ workouts.status_code resp = 422 ->
       trace r = []) /\
      (forall env, workouts.body resp = workouts.json_envelope env ->
         connect_calls (trace r) =
           if WorkoutResponse.success env then 3%nat else 1%nat)
  end.
Proof.
  cbn zeta. destruct req as [|[year month day url_slug|request]].
  - apply health_connects_once.
  - unfold stack.request, workouts.route, workouts.GET_workout.
    destruct (decide (2000 <= year <= 9999 /\ 1 <= month <= 12 /\ 1 <= day <= 31))
      as [(Hy & Hm & Hd)|Hout].
    + rewrite get_workout_in_bounds by done.
      apply search_workout_connection_budget.
    + destruct (get_workout_out_of_bounds year month day url_slug Hout)
        as (detail & -> & _).
      cbn. repeat split; try done. lia.
  - unfold stack.request, workouts.route, workouts.POST_search.
    destruct (WorkoutRequest.valid request).
    + apply search_workout_connection_budget.
    + cbn. repeat split; try done. lia.
Qed.

Lemma execute_single_unreachable (e : PyExc) (s : St) (db : DatabaseConnection)
    (query : string) (params : option Row) :
  (forall cfg w, (h (pymysql_connect cfg) w).1 = inl e) ->
  _connection db = None ->
  let r := run h (execute_single query params db) s in
  outcome r = (inl e, db) /\
  pymysql_calls (trace r) = [pymysql_connect (config db)].
Proof.
  intros Hdown Hdb. destruct db as [cfg c0]. cbn in Hdb. subst c0.
  cbn zeta. unfold_gateway. cbn.
  pose proof (Hdown cfg s) as Hs.
  destruct (h (pymysql_connect cfg) s) as [ans s1]. cbn in Hs. subst ans. done.
Qed.

Ltac first_call_fails e Hdown Hcalls :=
  rewrite run_bind; cbn [outcome final trace];
  match goal with
  | |- context [@run ?I ?S ?A h (execute_single ?q ?p ?db) ?s] =>
      let r := fresh "r" in
      let Hout := fresh "Hout" in
      assert (outcome (@run I S A h (execute_single q p db) s) = (inl e, db) /\
              pymysql_calls (trace (@run I S A h (execute_single q p db) s))
                = [pymysql_connect (config db)])
        as [Hout Hcalls] by exact (execute_single_unreachable e s db q p Hdown eq_refl);
      set (r := @run I S A h (execute_single q p db) s) in *;
      clearbody r; destruct r as [? ? ?];
      cbn [outcome final trace] in *; subst
  end;
  unfold pymysql_calls in *; stack_cbn.

Lemma search_workout_unreachable `{Pydantic} (e : PyExc) (s : St)
    (request : WorkoutRequest.t) :
  (forall cfg w, (h (pymysql_connect cfg) w).1 = inl e) ->
  let r := run h (stack.on_gateway
                    (app.serve
                       (bind (workouts.search_workout request) (fun x =>
                        Ret (workouts.respond workouts.json_envelope x))))
                    (init from_env)) s in
  trace r = [] /\ workouts.status_code (outcome r).1 = 400 \/
  pymysql_calls (trace r) = [pymysql_connect from_env] /\
  (outcome r).1 =
    {| workouts.status_code := 500;
       workouts.body := workouts.json_detail "Internal server error" |}.
Proof.
  intros Hdown. cbn zeta.
  unfold stack.on_gateway, app.serve, workouts.search_workout,
    try_except_ValueError, try_except, py_bind, py_lift, call.
  destruct (datetime.new _ _ _) as [e'|d] eqn:Hdate; stack_cbn.
  { left. by rewrite (date_new_raises_ValueError _ _ _ _ Hdate). }
  right. unfold_service. stack_cbn. first_call_fails e Hdown Hcalls.
  by rewrite omap_app, Hcalls.
Qed.

(** X9.  With a database that refuses every connection there is no
    second attempt.  A health request makes one [pymysql.connect] call,
    no other call into pymysql, and is answered 200 with the unhealthy
    payload.  A lookup request is either rejected by validation, with 400
    or 422 and without any call at all, or makes one [pymysql.connect]
    call, no other call into pymysql, and is answered the generic 500. *)
Theorem unreachable_database_no_retry `{Pydantic} (e : PyExc) (s : St)
    (req : workouts.Request) :
  (forall cfg w, (h (pymysql_connect cfg) w).1 = inl e) ->
  let r := run h (stack.request req) s in
  let resp := (outcome r).1 in
  match req with
  | workouts.health =>
      pymysql_calls (trace r) = [pymysql_connect from_env] /\
      resp = {| workouts.status_code := 200;
                workouts.body := workouts.json_dict (workouts.health_payload false) |}
  | workouts.lookup _ =>
      trace r = [] /\
      (workouts.status_code resp = 400 \/ workouts.status_code resp = 422) \/
      pymysql_calls (trace r) = [pymysql_connect from_env] /\
      resp = {| workouts.status_code := 500;
                workouts.body := workouts.json_detail "Internal server error" |}
  end.
Proof.
  intros Hdown. cbn zeta.
  destruct req as [|[year month day url_slug|request]].
  - unfold stack.request, stack.on_gateway, app.serve, workouts.route,
      workouts.GET_health, workouts.health_check, try_except, py_bind, call.
    stack_cbn. unfold_service. stack_cbn. first_call_fails e Hdown Hcalls.
    by rewrite omap_app, Hcalls.
  - unfold stack.request, workouts.route, workouts.GET_workout.
    destruct (decide (2000 <= year <= 9999 /\ 1 <= month <= 12 /\ 1 <= day <= 31))
      as [(Hy & Hm & Hd)|Hout].
    + rewrite get_workout_in_bounds by done.
      destruct (search_workout_unreachable e s
                  {| WorkoutRequest.year := year; WorkoutRequest.month := month;
                     WorkoutRequest.day := day;
                     WorkoutRequest.url_slug := url_slug |} Hdown)
        as [[Htrace Hstatus]|Hcalls]; [left|right]; auto.
    + left. destruct (get_workout_out_of_bounds year month day url_slug Hout)
        as (detail & -> & _). cbn. auto.
  - unfold stack.request, workouts.route, workouts.POST_search.
    destruct (WorkoutRequest.valid request); [|left; cbn; auto].
    destruct (search_workout_unreachable e s request Hdown)
      as [[Htrace Hstatus]|Hcalls]; [left|right]; auto.
Qed.

End GatewayCalls.

(** ** The lookup service, query by query *)

Section ServiceMore.
Import workout_service.
Context `{Pydantic} {St : Type} (h : Handler Db St).

(** Case analysis on the answers of the gateway and on the conversions. *)
Ltac service_case :=
  match goal with
  | |- context [h ?o ?s] =>
      let E := fresh "E" in
      let a := fresh "ans" in
      destruct (h o s) as [a ?] eqn:E; cbn [fst snd]
  | |- context [match ?x with inl _ => _ | inr _ => _ end] => destruct x eqn:?
  | |- context [if falsy ?x then _ else _] => destruct (falsy x) eqn:?
  end; run_cbn.

(** X10.  A lookup issues its queries in one order: the header query, the
    participant query, the activity-segment query, all three with the
    same date and slug, and stops early or goes through: the calls made
    are a prefix of that plan, the whole plan when a record is returned,
    and the header query alone when the answer is "not found". *)
Theorem lookup_query_plan (s : St) (workout_date : datetime.date) (url_slug : string) :
  let r := run h (get_workout_by_date_and_slug workout_date url_slug) s in
  let params := Some (query_params workout_date url_slug) in
  let plan := [db_execute_single workout_query params;
               db_execute_query pax_query params;
               db_execute_query aos_query params] in
  db_calls (trace r) `prefix_of` plan /\
  (forall w, outcome r = inr (Some w) -> db_calls (trace r) = plan) /\
  (outcome r = inr None ->
   db_calls (trace r) = [db_execute_single workout_query params]).
Proof.
  cbn zeta. unfold_service. run_cbn.
  repeat service_case.
  all: repeat split; try done.
  all: by eexists; reflexivity.
Qed.

(** X11.  Every lookup logs exactly one line: the exception, at ERROR
    level, when it raises, and an INFO line naming the date and the slug
    when it returns. *)
Theorem lookup_logs_once (s : St) (workout_date : datetime.date) (url_slug : string) :
  let r := run h (get_workout_by_date_and_slug workout_date url_slug) s in
  (forall e, outcome r = inl e ->
     app.logged (trace r) =
       [(ERROR, "Error retrieving workout data: " +:+ str_exc e)]) /\
  (outcome r = inr None ->
     app.logged (trace r) =
       [(INFO, "No workout found for date " +:+ datetime.isoformat workout_date
               +:+ " and slug " +:+ url_slug)]) /\
  (forall w, outcome r = inr (Some w) ->
     app.logged (trace r) =
       [(INFO, "Retrieved workout data for " +:+ datetime.isoformat workout_date
               +:+ " - " +:+ url_slug)]).
Proof.
  cbn zeta. unfold_service. run_cbn.
  repeat service_case; cbn; repeat split; try done.
  all: by intros ? [= <-].
Qed.

(** X12.  At most one gateway call of a lookup fails: the failing call is
    the last call made, and its exception is raised to the caller
    unchanged. *)
Theorem lookup_stops_at_gateway_error (s : St) (workout_date : datetime.date)
    (url_slug : string) :
  let r := run h (get_workout_by_date_and_slug workout_date url_slug) s in
  match app.gateway_errors (trace r) with
  | [] => app.failed_calls (trace r) = []
  | e :: others =>
      others = [] /\ outcome r = inl e /\
      exists o, app.failed_calls (trace r) = [o] /\ last (db_calls (trace r)) = Some o
  end.
Proof.
  cbn zeta. unfold_service. run_cbn.
  repeat service_case; cbn; eauto.
Qed.

(** X13.  A header row that is an empty dict counts as no row: the lookup
    returns [None] and issues no further query. *)
Theorem empty_header_row_is_not_found (s s1 : St) (workout_date : datetime.date)
    (url_slug : string) :
  h (db_execute_single workout_query (Some (query_params workout_date url_slug))) s
    = (inr (Some ∅), s1) ->
  let r := run h (get_workout_by_date_and_slug workout_date url_slug) s in
  outcome r = inr None /\
  db_calls (trace r) =
    [db_execute_single workout_query (Some (query_params workout_date url_slug))].
Proof.
  intros Hhdr. cbn zeta. unfold_service. run_cbn. by rewrite Hhdr.
Qed.

Lemma pax_of_row_no_name (row : Row) :
  row !! "pax_name" = None -> pax_of_row row = inl (KeyError "pax_name").
Proof. intros Hrow. unfold pax_of_row, getitem. by rewrite Hrow. Qed.

Lemma res_mapM_first_error {A B} (f : A -> Result B) good bad rest e :
  Forall (fun x => exists y, f x = inr y) good ->
  f bad = inl e ->
  res_mapM f (good ++ bad :: rest) = inl e.
Proof.
  intros Hgood Hbad. induction Hgood as [|x good [y Hy] _ IH]; cbn.
  - by rewrite Hbad.
  - by rewrite Hy, IH.
Qed.

(** X14.  A participant row without the [pax_name] column makes the
    lookup raise a [KeyError] for [pax_name], although the header row
    exists: the error is logged and the activity-segment query is not
    issued. *)
Theorem bad_participant_row_aborts (s s1 s2 : St) (workout_date : datetime.date)
    (url_slug : string) (workout_data : Row) (good : list Row) (bad : Row)
    (rest : list Row) :
  h (db_execute_single workout_query (Some (query_params workout_date url_slug))) s
    = (inr (Some workout_data), s1) ->
  workout_data <> ∅ ->
  h (db_execute_query pax_query (Some (query_params workout_date url_slug))) s1
    = (inr (good ++ bad :: rest), s2) ->
  Forall (fun row => exists p, pax_of_row row = inr p) good ->
  bad !! "pax_name" = None ->
  let r := run h (get_workout_by_date_and_slug workout_date url_slug) s in
  outcome r = inl (KeyError "pax_name") /\
  db_calls (trace r) =
    [db_execute_single workout_query (Some (query_params workout_date url_slug));
     db_execute_query pax_query (Some (query_params workout_date url_slug))] /\
  app.logged (trace r) = [(ERROR, "Error retrieving workout data: 'pax_name'")].
Proof.
  intros Hhdr Hne Hpax Hgood Hbad. cbn zeta. unfold_service. run_cbn.
  rewrite Hhdr. run_cbn. rewrite bool_decide_eq_false_2 by done. run_cbn.
  rewrite Hpax. run_cbn.
  rewrite (res_mapM_first_error pax_of_row good bad rest (KeyError "pax_name"))
    by auto using pax_of_row_no_name.
  done.
Qed.

(** X15.  The optional column of a participant, of an activity segment
    and of the leader may be absent from the row or NULL: with a valid
    name, both give the record whose optional field is [None]. *)
Theorem optional_column_absent_or_null (row : Row) (v : value) (n : string) :
  validate_str v = Some n ->
  (row !! "pax_name" = Some v ->
   row !! "f3_name" = None \/ row !! "f3_name" = Some VNone ->
   pax_of_row row = inr {| PAXModel.name := n; PAXModel.f3_name := None |}) /\
  (row !! "aos_name" = Some v ->
   row !! "description" = None \/ row !! "description" = Some VNone ->
   aos_of_row row = inr {| AOSModel.name := n; AOSModel.description := None |}) /\
  (row !! "qic_name" = Some v ->
   row !! "qic_f3_name" = None \/ row !! "qic_f3_name" = Some VNone ->
   qic_of_row row = inr {| QICModel.name := n; QICModel.f3_name := None |}).
Proof.
  intros Hv. repeat split; intros Hname [Hopt|Hopt].
  all: unfold pax_of_row, aos_of_row, qic_of_row, getitem, get,
         PAXModel.new, AOSModel.new, QICModel.new.
  all: by rewrite Hname, Hopt; cbn; rewrite Hv.
Qed.

(** X16.  The record a lookup returns takes its leader, its date and its
    slug from the header row (as validated), not from the arguments of
    the lookup. *)
Theorem record_echoes_header_row (s s1 : St) (workout_date : datetime.date)
    (url_slug : string) (workout_data : Row) (w : WorkoutModel.t) :
  h (db_execute_single workout_query (Some (query_params workout_date url_slug))) s
    = (inr (Some workout_data), s1) ->
  outcome (run h (get_workout_by_date_and_slug workout_date url_slug) s)
    = inr (Some w) ->
  qic_of_row workout_data = inr (WorkoutModel.qic w) /\
  (exists v, workout_data !! "workout_date" = Some v /\
             validate_date v = Some (WorkoutModel.workout_date w)) /\
  (exists v, workout_data !! "url_slug" = Some v /\
             validate_str v = Some (WorkoutModel.url_slug w)).
Proof.
  intros Hhdr. unfold_service. run_cbn. rewrite Hhdr. run_cbn.
  case_bool_decide; [done|]. run_cbn.
  answer h. destruct ans as [e|pax_data]; run_cbn; [done|].
  destruct (res_mapM pax_of_row pax_data) as [e|pax_list]; run_cbn; [done|].
  answer h. destruct ans as [e|aos_data]; run_cbn; [done|].
  destruct (res_mapM aos_of_row aos_data) as [e|aos_list]; run_cbn; [done|].
  destruct (qic_of_row workout_data) as [e|qic] eqn:Hq; run_cbn; [done|].
  destruct (workout_of_row workout_data qic pax_list aos_list) as [e|w'] eqn:Hw;
    run_cbn; [done|].
  intros [= <-].
  unfold workout_of_row, WorkoutModel.new, getitem, res_bind in Hw.
  repeat case_match; simplify_eq. cbn. eauto 10.
Qed.

End ServiceMore.

(** ** The HTTP surface, response by response *)

Section ApiMore.
Import workouts.
Context {St : Type} (h : Handler Svc St).

Lemma date_new_accepts (year month day : Z) :
  1 <= year <= 9999 -> 1 <= month <= 12 ->
  1 <= day <= datetime.days_in_month year month ->
  datetime.new year month day = inr (datetime.mkdate year month day).
Proof.
  intros Hy Hm Hd. unfold datetime.new.
  apply between_true in Hy, Hm, Hd. by rewrite Hy, Hm, Hd.
Qed.

Ltac unfold_api :=
  unfold GET_health, health_check, search_workout, try_except_ValueError,
    try_except, py_bind, py_lift, py_ret, py_raise, log, call.

Ltac api_case :=
  match goal with
  | |- context [h ?o ?s] =>
      let E := fresh "E" in
      let a := fresh "ans" in
      destruct (h o s) as [a ?] eqn:E; cbn [fst snd]
  end; cbn.

(** X17.  For a calendar date inside the bounds, the body endpoint calls
    the service once, with the date made of the three numbers and the
    slug unchanged, and answers 200 or 500, never 400.  A [GET] of the
    path made of the same inputs runs alike when the slug is one path
    segment; when it is not, the request stops at the router and nothing
    is called. *)
Theorem valid_lookup_calls_service_once (s : St) (year month day : Z)
    (url_slug : string) :
  2000 <= year <= 9999 -> 1 <= month <= 12 ->
  1 <= day <= datetime.days_in_month year month ->
  let call_ := svc_get_workout_by_date_and_slug
                 (datetime.mkdate year month day) url_slug in
  let post := run h (POST_search
                       {| WorkoutRequest.year := year; WorkoutRequest.month := month;
                          WorkoutRequest.day := day;
                          WorkoutRequest.url_slug := url_slug |}) s in
  let get := run h (GET_route year month day url_slug) s in
  service_calls (trace post) = [call_] /\
  (status_code (outcome post) = 200 \/ status_code (outcome post) = 500) /\
  if path_param url_slug then get = post else trace get = [].
Proof.
  intros Hy Hm Hd. cbn zeta.
  assert (1 <= day <= 31) as Hd31.
  { unfold datetime.days_in_month in Hd. repeat case_match; lia. }
  split_and!.
  1, 2: unfold POST_search; rewrite request_valid by done; unfold_api;
    cbn [WorkoutRequest.year WorkoutRequest.month WorkoutRequest.day
         WorkoutRequest.url_slug];
    rewrite date_new_accepts by (done || lia); cbn;
    api_case; destruct ans as [e|[w|]]; cbn; auto.
  unfold GET_route. destruct (path_param url_slug).
  - symmetry. by apply POST_search_as_GET_workout.
  - by destruct (path_param (rstrip_slash url_slug)).
Qed.

(** X18.  An envelope carries what the service returned, unchanged:
    [data] is the answer of the service, [success] tells whether it is a
    record, and nothing is logged by the endpoint. *)
Theorem envelope_carries_service_answer (s : St) (l : Lookup)
    (resp : WorkoutResponse.t) :
  outcome (run h (lookup_handler l) s) = inr resp ->
  lookups_returned (trace (run h (lookup_handler l) s))
    = [WorkoutResponse.data resp] /\
  WorkoutResponse.success resp =
    match WorkoutResponse.data resp with Some _ => true | None => false end /\
  endpoint_log (trace (run h (lookup_handler l) s)) = [].
Proof.
  destruct l as [year month day url_slug|request]; cbn [lookup_handler];
    unfold get_workout; unfold_api.
  - repeat (case_match; cbn; try done).
    all: repeat api_case; repeat (case_match; cbn; try done).
    all: by intros ?; simplify_eq/=.
  - repeat (case_match; cbn; try done).
    all: repeat api_case; repeat (case_match; cbn; try done).
    all: by intros ?; simplify_eq/=.
Qed.

(** X19.  Whatever exception the service raises, an [HTTPException] with
    another status included, a lookup endpoint logs it once and answers
    500 "Internal server error". *)
Theorem service_exception_becomes_500 (s : St) (l : Lookup) (e : PyExc) :
  let r := run h (route (lookup l)) s in
  e ∈ service_errors (trace r) ->
  outcome r = {| status_code := 500; body := json_detail "Internal server error" |} /\
  endpoint_log (trace r) = [(ERROR, "Error retrieving workout: " +:+ str_exc e)].
Proof.
  cbn zeta. destruct l as [year month day url_slug|request]; cbn [route].
  - unfold GET_workout.
    destruct (decide (2000 <= year <= 9999 /\ 1 <= month <= 12 /\ 1 <= day <= 31))
      as [(Hy & Hm & Hd)|Hout].
    + rewrite get_workout_in_bounds by done. unfold_api. cbn.
      destruct (datetime.new year month day) as [e'|d] eqn:Hdate; cbn.
      { rewrite (date_new_raises_ValueError _ _ _ _ Hdate). cbn.
        by intros ?%elem_of_nil. }
      api_case. destruct ans as [e'|[w|]]; cbn.
      * by intros ->%list_elem_of_singleton.
      * by intros ?%elem_of_nil.
      * by intros ?%elem_of_nil.
    + destruct (get_workout_out_of_bounds year month day url_slug Hout)
        as (detail & -> & _).
      cbn. by intros ?%elem_of_nil.
  - unfold POST_search. destruct (WorkoutRequest.valid request); cbn.
    2: by intros ?%elem_of_nil.
    unfold_api. cbn.
    destruct (datetime.new _ _ _) as [e'|d] eqn:Hdate; cbn.
    { rewrite (date_new_raises_ValueError _ _ _ _ Hdate). cbn.
      by intros ?%elem_of_nil. }
    api_case. destruct ans as [e'|[w|]]; cbn.
    * by intros ->%list_elem_of_singleton.
    * by intros ?%elem_of_nil.
    * by intros ?%elem_of_nil.
Qed.

Lemma search_workout_contained (s : St) (request : WorkoutRequest.t) :
  match outcome (run h (search_workout request) s) with
  | inr _ => True
  | inl e =>
      (exists detail, e = HTTPException 400 detail) \/
      e = HTTPException 500 "Internal server error"
  end.
Proof.
  unfold_api. cbn.
  destruct (datetime.new _ _ _) as [e'|d] eqn:Hdate; cbn.
  { rewrite (date_new_raises_ValueError _ _ _ _ Hdate). cbn. eauto. }
  api_case. destruct ans as [e'|[w|]]; cbn; auto.
Qed.

(** X20.  No exception other than an [HTTPException] of its own leaves
    an endpoint function, whatever the service does: [health_check]
    returns its dict or raises 503 "Service unavailable"; [get_workout],
    and [search_workout] on a request that satisfies its field
    constraints, return an envelope or raise 400 or 500 "Internal server
    error". *)
Theorem only_http_exceptions_escape (s : St) (l : Lookup) :
  match l with
  | by_path _ _ _ _ => True
  | by_body request => WorkoutRequest.valid request = true
  end ->
  match outcome (run h health_check s) with
  | inr _ => True
  | inl e => e = HTTPException 503 "Service unavailable"
  end /\
  match outcome (run h (lookup_handler l) s) with
  | inr _ => True
  | inl e =>
      (exists detail, e = HTTPException 400 detail) \/
      e = HTTPException 500 "Internal server error"
  end.
Proof.
  intros _. split.
  { unfold_api. cbn. api_case. destruct ans as [e|b]; cbn; auto. }
  destruct l as [year month day url_slug|request]; cbn [lookup_handler].
  - destruct (decide (2000 <= year <= 9999 /\ 1 <= month <= 12 /\ 1 <= day <= 31))
      as [(Hy & Hm & Hd)|Hout].
    + rewrite get_workout_in_bounds by done. by apply search_workout_contained.
    + destruct (get_workout_out_of_bounds year month day url_slug Hout)
        as (detail & -> & _).
      cbn. eauto.
  - by apply search_workout_contained.
Qed.

(** Outside the bounds the path endpoint answers one of three details. *)
Lemma path_bounds_shape (s : St) (year month day : Z) (url_slug : string) :
  ~ (2000 <= year <= 9999 /\ 1 <= month <= 12 /\ 1 <= day <= 31) ->
  let get := outcome (run h (GET_workout year month day url_slug) s) in
  get = {| status_code := 400;
           body := json_detail "Year must be between 2000 and 9999" |} \/
  get = {| status_code := 400;
           body := json_detail "Month must be between 1 and 12" |} \/
  get = {| status_code := 400;
           body := json_detail "Day must be between 1 and 31" |}.
Proof.
  intros Hout. cbn zeta. unfold GET_workout.
  destruct (get_workout_out_of_bounds year month day url_slug Hout)
    as (detail & -> & Hyear & Hmonth & Hday). cbn.
  destruct (decide (2000 <= year <= 9999)) as [Hy|Hy];
    [|rewrite (Hyear Hy); auto].
  destruct (decide (1 <= month <= 12)) as [Hm|Hm];
    [|rewrite (Hmonth Hy Hm); auto].
  destruct (decide (1 <= day <= 31)) as [Hd|Hd];
    [|rewrite (Hday Hy Hm Hd); auto].
  tauto.
Qed.

(** X21.  The two lookup endpoints draw the same line: the body endpoint
    rejects a request with 422 exactly when the path endpoint rejects the
    same numbers with one of its three range messages. *)
Theorem same_field_ranges (s : St) (year month day : Z) (url_slug : string) :
  let get := outcome (run h (GET_workout year month day url_slug) s) in
  let post := outcome (run h (POST_search
                {| WorkoutRequest.year := year; WorkoutRequest.month := month;
                   WorkoutRequest.day := day;
                   WorkoutRequest.url_slug := url_slug |}) s) in
  status_code post = 422 <->
  get = {| status_code := 400;
           body := json_detail "Year must be between 2000 and 9999" |} \/
  get = {| status_code := 400;
           body := json_detail "Month must be between 1 and 12" |} \/
  get = {| status_code := 400;
           body := json_detail "Day must be between 1 and 31" |}.
Proof.
  cbn zeta.
  destruct (decide (2000 <= year <= 9999 /\ 1 <= month <= 12 /\ 1 <= day <= 31))
    as [(Hy & Hm & Hd)|Hout].
  - unfold POST_search, GET_workout.
    rewrite request_valid, get_workout_in_bounds by done.
    unfold_api. cbn.
    destruct (datetime.new year month day) as [e'|d] eqn:Hdate; cbn.
    { rewrite (date_new_raises_ValueError _ _ _ _ Hdate). cbn.
      split; [done|]. intros [?|[?|?]]; discriminate. }
    api_case. destruct ans as [e'|[w|]]; cbn.
    all: split; [done|]; intros [?|[?|?]]; discriminate.
  - assert (WorkoutRequest.valid
              {| WorkoutRequest.year := year; WorkoutRequest.month := month;
                 WorkoutRequest.day := day; WorkoutRequest.url_slug := url_slug |}
            = false) as Hinvalid.
    { unfold WorkoutRequest.valid. cbn.
      apply not_true_is_false. rewrite !andb_true_iff, !Z.leb_le. lia. }
    unfold POST_search. rewrite Hinvalid. cbn.
    destruct (path_bounds_shape s year month day url_slug Hout) as [?|[?|?]]; tauto.
Qed.

End ApiMore.

(** ** The Lambda entry point *)

Section Lambda.
Import lambda_handler.
Context (str_any : any -> string) {St : Type} (h : Handler Lambda St).

(** X22.  [lambda_handler] never raises.  It calls the adapter once; when
    the adapter returns, its response is returned unchanged; when it
    raises, the exception is logged and the fixed 500 response, which
    does not mention it, is returned. *)
Theorem lambda_handler_contains_errors (s : St) (event : gmap string any)
    (context : any) :
  let r := run h (lambda_handler str_any event context) s in
  let processing :=
    (INFO, "Processing Lambda event: " +:+ str_any (get event "httpMethod")
           +:+ " " +:+ str_any (get event "path")) in
  exists answer,
    answers (trace r) = [answer] /\
    match answer with
    | inr response =>
        outcome r = inr response /\
        logged (trace r) =
          [processing;
           (INFO, "Lambda response status: "
                  +:+ str_any (get response "statusCode"))]
    | inl e =>
        outcome r = inr error_response /\
        logged (trace r) =
          [processing; (ERROR, "Lambda handler error: " +:+ str_exc e)]
    end.
Proof.
  cbn zeta. unfold lambda_handler, try_except, py_bind, log, call. cbn.
  match goal with |- context [h (handler event context) ?w] =>
    destruct (h (handler event context) w) as [[e|response] s1] end; cbn.
  - by exists (inl e).
  - by exists (inr response).
Qed.

End Lambda.

(** ** The added properties on the test doubles *)

Lemma execute_query_returns_witness :
  let r := run (mocks.pymysql_up mocks.pax_data)
             (database.execute_query workout_service.pax_query None
                (database.init database.from_env)) 0%nat in
  exists c cur,
    database.pymysql_calls (trace r) =
      [database.pymysql_connect database.from_env; database.connection_cursor c;
       database.cursor_execute cur workout_service.pax_query ∅;
       database.cursor_fetchall cur; database.cursor_close cur;
       database.connection_close c] /\
    database.fetched (trace r) = [mocks.pax_data] /\
    database.pymysql_errors (trace r) = [] /\
    (outcome r).2 = database.init database.from_env.
Proof.
  apply (execute_query_returns (mocks.pymysql_up mocks.pax_data) 0%nat
           (database.init database.from_env) workout_service.pax_query None
           mocks.pax_data).
  vm_compute. reflexivity.
Defined.

Lemma stack_follows_protocol_witness :
  let r := run (mocks.pymysql_up [mocks.workout_data])
             (stack.on_gateway
                (workout_service.get_workout_by_date_and_slug (H := mocks.strict)
                   (datetime.mkdate 2024 1 15) "test-workout")
                (database.init database.from_env)) 0%nat in
  database.protocol (None, None) (trace r) = Some (None, None) /\
  database._connection (outcome r).2 = None.
Proof.
  apply (stack_follows_protocol (mocks.pymysql_up [mocks.workout_data])
           (workout_service.get_workout_by_date_and_slug (H := mocks.strict)
              (datetime.mkdate 2024 1 15) "test-workout")
           0%nat (database.init database.from_env)).
  reflexivity.
Defined.

Lemma unreachable_database_no_retry_witness :
  let r := run mocks.pymysql_down
             (stack.request (H := mocks.strict)
                (workouts.lookup (workouts.by_path 2024 1 15 "test-workout")))
             0%nat in
  let resp := (outcome r).1 in
  trace r = [] /\
  (workouts.status_code resp = 400 \/ workouts.status_code resp = 422) \/
  database.pymysql_calls (trace r) = [database.pymysql_connect database.from_env] /\
  resp = {| workouts.status_code := 500;
            workouts.body := workouts.json_detail "Internal server error" |}.
Proof.
  apply (unreachable_database_no_retry (H := mocks.strict) mocks.pymysql_down
           (Exception_ "(2003, 'Can not connect to MySQL server')") 0%nat
           (workouts.lookup (workouts.by_path 2024 1 15 "test-workout"))).
  intros cfg w. reflexivity.
Defined.

Lemma empty_header_row_is_not_found_witness :
  let h := mocks.mock_db (inr (Some ∅)) (inr mocks.pax_data) (inr mocks.aos_data) in
  let r := run h (workout_service.get_workout_by_date_and_slug (H := mocks.strict)
                    (datetime.mkdate 2024 1 15) "test-workout") tt in
  outcome r = inr None /\
  workout_service.db_calls (trace r) =
    [workout_service.db_execute_single workout_service.workout_query
       (Some (workout_service.query_params (datetime.mkdate 2024 1 15)
                "test-workout"))].
Proof.
  apply (empty_header_row_is_not_found (H := mocks.strict)
           (mocks.mock_db (inr (Some ∅)) (inr mocks.pax_data) (inr mocks.aos_data))
           tt tt (datetime.mkdate 2024 1 15) "test-workout").
  reflexivity.
Defined.

Lemma workout_data_not_empty : mocks.workout_data <> ∅.
Proof.
  intros Heq. apply (f_equal (fun m : Row => m !! "qic_name")) in Heq.
  vm_compute in Heq. discriminate.
Qed.

Lemma bad_participant_row_aborts_witness :
  let good := {[ "pax_name" := VStr "Donatello"; "f3_name" := VNone ]} : Row in
  let bad := {[ "f3_name" := VStr "Leonardo" ]} : Row in
  let h := mocks.mock_db (inr (Some mocks.workout_data)) (inr [good; bad])
             (inr mocks.aos_data) in
  let r := run h (workout_service.get_workout_by_date_and_slug (H := mocks.strict)
                    (datetime.mkdate 2024 1 15) "test-workout") tt in
  outcome r = inl (KeyError "pax_name") /\
  workout_service.db_calls (trace r) =
    [workout_service.db_execute_single workout_service.workout_query
       (Some (workout_service.query_params (datetime.mkdate 2024 1 15)
                "test-workout"));
     workout_service.db_execute_query workout_service.pax_query
       (Some (workout_service.query_params (datetime.mkdate 2024 1 15)
                "test-workout"))] /\
  app.logged (trace r) = [(ERROR, "Error retrieving workout data: 'pax_name'")].
Proof.
  apply (bad_participant_row_aborts (H := mocks.strict)
           (mocks.mock_db (inr (Some mocks.workout_data))
              (inr [{[ "pax_name" := VStr "Donatello"; "f3_name" := VNone ]};
                    {[ "f3_name" := VStr "Leonardo" ]}])
              (inr mocks.aos_data))
           tt tt tt (datetime.mkdate 2024 1 15) "test-workout" mocks.workout_data
           [{[ "pax_name" := VStr "Donatello"; "f3_name" := VNone ]}]
           {[ "f3_name" := VStr "Leonardo" ]} []).
  - reflexivity.
  - exact workout_data_not_empty.
  - reflexivity.
  - constructor; [|constructor]. eexists. vm_compute. reflexivity.
  - vm_compute. reflexivity.
Defined.

Lemma optional_column_absent_or_null_witness :
  workout_service.pax_of_row (H := mocks.strict) {[ "pax_name" := VStr "YHC" ]}
    = inr {| PAXModel.name := "YHC"; PAXModel.f3_name := None |}.
Proof.
  apply (optional_column_absent_or_null (H := mocks.strict)
           {[ "pax_name" := VStr "YHC" ]} (VStr "YHC") "YHC");
    [reflexivity|reflexivity|left; reflexivity].
Defined.

Lemma record_echoes_header_row_witness :
  workout_service.qic_of_row (H := mocks.strict) mocks.workout_data
    = inr (WorkoutModel.qic mocks.test_workout) /\
  (exists v, mocks.workout_data !! "workout_date" = Some v /\
             validate_date (Pydantic := mocks.strict) v
               = Some (WorkoutModel.workout_date mocks.test_workout)) /\
  (exists v, mocks.workout_data !! "url_slug" = Some v /\
             validate_str (Pydantic := mocks.strict) v
               = Some (WorkoutModel.url_slug mocks.test_workout)).
Proof.
  apply (record_echoes_header_row (H := mocks.strict)
           (mocks.mock_db (inr (Some mocks.workout_data))
              (inr mocks.pax_data) (inr mocks.aos_data))
           tt tt (datetime.mkdate 2024 1 15) "test-workout").
  - reflexivity.
  - vm_compute. reflexivity.
Defined.

Lemma valid_lookup_calls_service_once_witness :
  let h := mocks.mock_service (inr (Some mocks.test_workout)) (inr true) in
  let post := run h (workouts.POST_search
                       {| WorkoutRequest.year := 2024; WorkoutRequest.month := 2;
                          WorkoutRequest.day := 29;
                          WorkoutRequest.url_slug := "test-workout" |}) tt in
  let get := run h (workouts.GET_route 2024 2 29 "test-workout") tt in
  workouts.service_calls (trace post) =
    [workouts.svc_get_workout_by_date_and_slug (datetime.mkdate 2024 2 29)
       "test-workout"] /\
  (workouts.status_code (outcome post) = 200 \/
   workouts.status_code (outcome post) = 500) /\
  get = post.
Proof.
  apply (valid_lookup_calls_service_once
           (mocks.mock_service (inr (Some mocks.test_workout)) (inr true)) tt
           2024 2 29 "test-workout"); [lia|lia|].
  vm_compute. split; discriminate.
Defined.

Lemma envelope_carries_service_answer_witness :
  let h := mocks.mock_service (inr (Some mocks.test_workout)) (inr true) in
  let l := workouts.by_path 2024 1 15 "test-workout" in
  let resp := {| WorkoutResponse.success := true;
                 WorkoutResponse.message := Some "Workout data retrieved successfully";
                 WorkoutResponse.data := Some mocks.test_workout |} in
  workouts.lookups_returned (trace (run h (workouts.lookup_handler l) tt))
    = [WorkoutResponse.data resp] /\
  WorkoutResponse.success resp =
    match WorkoutResponse.data resp with Some _ => true | None => false end /\
  workouts.endpoint_log (trace (run h (workouts.lookup_handler l) tt)) = [].
Proof.
  apply (envelope_carries_service_answer
           (mocks.mock_service (inr (Some mocks.test_workout)) (inr true)) tt
           (workouts.by_path 2024 1 15 "test-workout")).
  vm_compute. reflexivity.
Defined.

Lemma only_http_exceptions_escape_witness :
  let h := mocks.mock_service (inl (Exception_ "Database error"))
             (inl (Exception_ "Database error")) in
  let request := {| WorkoutRequest.year := 2024; WorkoutRequest.month := 1;
                    WorkoutRequest.day := 15;
                    WorkoutRequest.url_slug := "test-workout" |} in
  match outcome (run h workouts.health_check tt) with
  | inr _ => True
  | inl e => e = HTTPException 503 "Service unavailable"
  end /\
  match outcome (run h (workouts.lookup_handler (workouts.by_body request)) tt) with
  | inr _ => True
  | inl e =>
      (exists detail, e = HTTPException 400 detail) \/
      e = HTTPException 500 "Internal server error"
  end.
Proof.
  apply (only_http_exceptions_escape
           (mocks.mock_service (inl (Exception_ "Database error"))
              (inl (Exception_ "Database error"))) tt
           (workouts.by_body
              {| WorkoutRequest.year := 2024; WorkoutRequest.month := 1;
                 WorkoutRequest.day := 15;
                 WorkoutRequest.url_slug := "test-workout" |})).
  reflexivity.
Defined.

Lemma service_exception_becomes_500_witness :
  let h := mocks.mock_service (inl (HTTPException 404 "Not Found")) (inr true) in
  let r := run h (workouts.route
                    (workouts.lookup (workouts.by_path 2024 1 15 "test-workout"))) tt in
  outcome r = {| workouts.status_code := 500;
                 workouts.body := workouts.json_detail "Internal server error" |} /\
  workouts.endpoint_log (trace r) =
    [(ERROR, "Error retrieving workout: " +:+ str_exc (HTTPException 404 "Not Found"))].
Proof.
  apply (service_exception_becomes_500
           (mocks.mock_service (inl (HTTPException 404 "Not Found")) (inr true)) tt
           (workouts.by_path 2024 1 15 "test-workout")
           (HTTPException 404 "Not Found")).
  vm_compute. apply list_elem_of_here.
Defined.

(** The Lambda entry point on an adapter that raises. *)
Example lambda_handler_error :
  outcome (run (mocks.mock_mangum (inl (Exception_ "boom")))
             (lambda_handler.lambda_handler mocks.str_any
                {[ "httpMethod" := lambda_handler.AStr "GET";
                   "path" := lambda_handler.AStr "/api/v1/health" ]}
                lambda_handler.ANone) tt)
  = inr lambda_handler.error_response.
Proof. vm_compute. reflexivity. Qed.
